(** * SceneExtractor: scene-change detection over a sampled video

    A shallow embedding of [SceneExtractor.py] and the properties its
    specification states about it.

    Number model.  Python floats (timestamps, feature components,
    similarity scores, [alpha], [frame_per_minute]) are modelled by the real
    numbers [R]: every arithmetic operation is the exact one, rounding error
    of binary64 is not modelled.  Python ints ([int(timestamp)], the result
    of [round]) are [Z].  Where the rounding itself decides what the program
    does (the percentile rank computed from [frame_per_minute], the float32
    arithmetic of the preprocessing) the code is modelled a second time in
    IEEE 754 arithmetic, modules [Binary64] and [Binary32], and the
    properties that depend on it are stated of that model.

    External libraries.  [cv2.VideoCapture] is the list of frames it will
    deliver; the ResNet50 feature extractor is a function parameter;
    [numpy.mean], [numpy.std], [numpy.percentile] and
    [torch.nn.functional.cosine_similarity] are modelled by the formulas of
    their documentation. *)

From Stdlib Require Import String.
From Stdlib Require Import SpecFloat.
From Stdlib Require Import Reals Lra Lia ZArith List Sorted Bool.
Import ListNotations.

Open Scope string_scope.
Open Scope list_scope.
Open Scope R_scope.

(** ** Exceptions and results *)

Inductive exn : Type :=
| AssertionError (msg : string)
| ValueError (msg : string)
| OverflowError (msg : string).

Inductive result (A : Type) : Type :=
| Ok (a : A)
| Raise (e : exn).

Arguments Ok {A} a.
Arguments Raise {A} e.

Definition bind {A B : Type} (m : result A) (k : A -> result B) : result B :=
  match m with
  | Ok a => k a
  | Raise e => Raise e
  end.

Notation "x <- m ;; k" := (bind m (fun x => k))
  (at level 61, m at next level, right associativity).

(** [assert cond, msg] *)
Definition py_assert (cond : bool) (msg : string) : result unit :=
  if cond then Ok tt else Raise (AssertionError msg).

(** Truth value of a Python list: empty lists are falsy. *)
Definition truthy {A : Type} (l : list A) : bool :=
  match l with
  | [] => false
  | _ :: _ => true
  end.

(** ** IEEE 754 arithmetic *)

(** Python floats as they are: binary64, every operation rounded to nearest
    with ties to even, after the specification [SpecFloat] of the
    library. *)
Module Binary64.

Definition prec : Z := 53%Z.
Definition emax : Z := 1024%Z.

Definition float : Type := spec_float.

(** [float(z)] for a Python int. *)
Definition of_Z (z : Z) : float := binary_normalize prec emax z 0%Z false.

Definition add : float -> float -> float := SFadd prec emax.
Definition sub : float -> float -> float := SFsub prec emax.
Definition mul : float -> float -> float := SFmul prec emax.
Definition div : float -> float -> float := SFdiv prec emax.

(** The float a decimal literal denotes, the literal given as the fraction
    [n / d] of two integers below 2^53 (44.7 is [literal 447 10]): the
    correctly rounded quotient.  It is also [n / d] on two Python ints. *)
Definition literal (n d : Z) : float := div (of_Z n) (of_Z d).

Definition infinity : float := S754_infinity false.
Definition nan : float := S754_nan.

(** The largest finite float, [sys.float_info.max], an integer. *)
Definition max_value : Z := (2 ^ 1024 - 2 ^ 971)%Z.

(** The integer nearest to [m * 2^e], ties going to the even one. *)
Definition round_half_even (m : positive) (e : Z) : Z :=
  match e with
  | Zneg p =>
      let d := Z.pow_pos 2 p in
      let q := (Zpos m / d)%Z in
      let r := (Zpos m mod d)%Z in
      match (2 * r ?= d)%Z with
      | Lt => q
      | Gt => (q + 1)%Z
      | Eq => if Z.even q then q else (q + 1)%Z
      end
  | _ => (Zpos m * 2 ^ e)%Z
  end.

(** [round(x)] on a float, one argument. *)
Definition round (x : float) : result Z :=
  match x with
  | S754_zero _ => Ok 0%Z
  | S754_finite s m e => Ok (cond_Zopp s (round_half_even m e))
  | S754_infinity _ => Raise (OverflowError "cannot convert float infinity to integer")
  | S754_nan => Raise (ValueError "cannot convert float NaN to integer")
  end.

(** [np.mean] of fewer than eight floats: their sum in index order, divided
    by their number. *)
Definition mean (a : list float) : float :=
  div (fold_left add a (S754_zero false)) (of_Z (Z.of_nat (length a))).

(** [x < y] *)
Definition ltb (x y : float) : bool := SFltb x y.

End Binary64.

(** The float32 of [torch]: the same arithmetic with 24 bits of
    precision. *)
Module Binary32.

Definition prec : Z := 24%Z.
Definition emax : Z := 128%Z.

Definition float : Type := spec_float.

(** An 8-bit value as a float32 (exact). *)
Definition of_Z (z : Z) : float := binary_normalize prec emax z 0%Z false.

(** A Python float rounded to float32. *)
Definition of_binary64 (x : Binary64.float) : float :=
  match x with
  | S754_finite s m e => binary_normalize prec emax (cond_Zopp s (Zpos m)) e s
  | _ => x
  end.

Definition sub : float -> float -> float := SFsub prec emax.
Definition div : float -> float -> float := SFdiv prec emax.

Definition zero : float := S754_zero false.

Definition is_finite (x : float) : bool :=
  match x with
  | S754_zero _ | S754_finite _ _ _ => true
  | _ => false
  end.

(** The real number a finite float stands for. *)
Definition to_R (x : float) : R :=
  match x with
  | S754_finite s m e => IZR (cond_Zopp s (Zpos m)) * powerRZ 2 e
  | _ => 0
  end.

(** [x <= n / d] and [n / d <= x] for a finite [x], decided on integers. *)
Definition leb_ratio (x : float) (n : Z) (d : positive) : bool :=
  match x with
  | S754_zero _ => (0 <=? n)%Z
  | S754_finite s m (Zneg p) =>
      (cond_Zopp s (Zpos m) * Zpos d <=? n * Z.pow_pos 2 p)%Z
  | S754_finite s m e => (cond_Zopp s (Zpos m) * 2 ^ e * Zpos d <=? n)%Z
  | _ => false
  end.

Definition geb_ratio (x : float) (n : Z) (d : positive) : bool :=
  match x with
  | S754_zero _ => (n <=? 0)%Z
  | S754_finite s m (Zneg p) =>
      (n * Z.pow_pos 2 p <=? cond_Zopp s (Zpos m) * Zpos d)%Z
  | S754_finite s m e => (n <=? cond_Zopp s (Zpos m) * 2 ^ e * Zpos d)%Z
  | _ => false
  end.

End Binary32.

(** ** Python builtins *)

Module Py.

(** Comparisons on floats, as booleans. *)
Definition Rleb (x y : R) : bool := if Rle_dec x y then true else false.
Definition Rgeb (x y : R) : bool := if Rge_dec x y then true else false.

(** [int(x)] on a float: truncation toward zero. *)
Definition int (x : R) : Z :=
  if Rle_dec 0 x then Int_part x else (- Int_part (- x))%Z.

(** [round(x)] on a float, one argument: the nearest integer, ties going to
    the even one. *)
Definition round (x : R) : Z :=
  let f := Int_part x in
  let d := x - IZR f in
  if Rlt_dec d (1 / 2) then f
  else if Rlt_dec (1 / 2) d then (f + 1)%Z
  else if Z.even f then f else (f + 1)%Z.

(** [collections.OrderedDict] with int keys: an association list in
    insertion order, without duplicate keys. *)
Definition OrderedDict (V : Type) : Type := list (Z * V).

(** [d[k] = v]: an existing key keeps its place and takes the new value, a
    new key goes to the end. *)
Fixpoint setitem {V : Type} (d : OrderedDict V) (k : Z) (v : V) : OrderedDict V :=
  match d with
  | [] => [(k, v)]
  | (k', v') :: d' =>
      if (k' =? k)%Z then (k', v) :: d' else (k', v') :: setitem d' k v
  end.

(** [sorted(d.items())]: the keys of a dict are distinct, so the tuples are
    ordered by key alone. *)
Fixpoint insert_item {V : Type} (x : Z * V) (l : list (Z * V)) : list (Z * V) :=
  match l with
  | [] => [x]
  | y :: l' => if (fst x <=? fst y)%Z then x :: l else y :: insert_item x l'
  end.

Definition sorted {V : Type} (items : list (Z * V)) : list (Z * V) :=
  fold_right insert_item [] items.

End Py.

(** ** numpy *)

Module Np.

(** A flattened array of floats. *)
Definition ndarray : Type := list R.

Definition sum (a : ndarray) : R := fold_left Rplus a 0.

(** [np.mean(a)] *)
Definition mean (a : ndarray) : R := sum a / INR (length a).

(** [np.std(a)], with the default [ddof = 0]: the square root of the mean of
    the squared deviations from the mean. *)
Definition std (a : ndarray) : R :=
  let arrmean := mean a in
  sqrt (mean (map (fun x => (x - arrmean) * (x - arrmean)) a)).

Fixpoint insert (x : R) (l : list R) : list R :=
  match l with
  | [] => [x]
  | y :: l' => if Rle_dec x y then x :: l else y :: insert x l'
  end.

(** [np.sort(a)] *)
Definition sort (a : ndarray) : ndarray := fold_right insert [] a.

(** [np.percentile(a, q)] for a scalar [q], default method (linear
    interpolation between the two order statistics around the virtual index
    [(n - 1) * q / 100], the upper one clipped to the last index).  A rank
    outside [0, 100] is refused. *)
Definition percentile (a : ndarray) (q : Z) : result R :=
  if ((0 <=? q) && (q <=? 100))%Z then
    let arr := sort a in
    let n := length arr in
    let virtual_index := (INR n - 1) * (IZR q / 100) in
    let previous_index := Int_part virtual_index in
    let gamma := virtual_index - IZR previous_index in
    let prev := Z.to_nat previous_index in
    let next := Nat.min (S prev) (n - 1) in
    let lo := nth prev arr 0 in
    let hi := nth next arr 0 in
    Ok (lo + (hi - lo) * gamma)
  else Raise (ValueError "Percentiles must be in the range [0, 100]").

End Np.

(** ** torch *)

Module Torch.

Definition dot (x1 x2 : Np.ndarray) : R :=
  Np.sum (map (fun p => fst p * snd p) (combine x1 x2)).

(** The Euclidean norm. *)
Definition norm (x : Np.ndarray) : R := sqrt (Np.sum (map (fun c => c * c) x)).

(** The default [eps] of [cosine_similarity], 1e-8. *)
Definition eps : R := / 100000000.

(** [F.cosine_similarity(x1, x2, dim=0)] on two 1-D tensors of one length:
    [x1 . x2 / (max(|x1|, eps) * max(|x2|, eps))]. *)
Definition cosine_similarity (x1 x2 : Np.ndarray) : R :=
  dot x1 x2 / (Rmax (norm x1) eps * Rmax (norm x2) eps).

End Torch.

(** ** SceneExtractor.py *)

Section SceneExtractor.

(** A decoded frame (a [numpy.ndarray] of pixels). *)
Variable image : Type.

(** [extract_features(frame)]: resize, normalise, ResNet50 up to the average
    pooling layer.  The output has a fixed shape; it is kept here in its
    flattened form, so that [reshape(-1)] is the identity. *)
Variable extract_features : image -> Np.ndarray.

(** What [cap.read()] and [cap.get(cv2.CAP_PROP_POS_MSEC)] give for one
    frame. *)
Record frame : Type := Frame { pos_msec : R; pixels : image }.

(** An opened [cv2.VideoCapture]: the frames still to be read.  When the list
    is exhausted [cap.read()] returns [ret = False]. *)
Definition VideoCapture : Type := list frame.

Definition process_frame (frame_number : R) (fr : image) : R * option Np.ndarray :=
  let features := extract_features fr in
  (frame_number, Some features).

(** The [while True] loop of [calculate_similarities_parallel]; the state is
    [features_dict] and [last_processed_timestamp]. *)
Fixpoint sampling_loop (cap : VideoCapture)
    (features_dict : Py.OrderedDict Np.ndarray) (last_processed_timestamp : R)
    : Py.OrderedDict Np.ndarray * R :=
  match cap with
  | [] => (features_dict, last_processed_timestamp)
  | fr :: cap' =>
      let timestamp := pos_msec fr / 1000 in
      if Py.Rgeb (timestamp - last_processed_timestamp) 1 then
        let '(timestamp, features) := process_frame timestamp (pixels fr) in
        let features_dict :=
          match features with
          | Some f => Py.setitem features_dict (Py.int timestamp) f
          | None => features_dict
          end in
        sampling_loop cap' features_dict timestamp
      else sampling_loop cap' features_dict last_processed_timestamp
  end.

(** The [for frame_number, features in sorted(features_dict.items())]
    loop; the state is [last_features] and [similarities]. *)
Fixpoint similarity_loop (items : list (Z * Np.ndarray))
    (last_features : option Np.ndarray) (similarities : list (Z * R))
    : list (Z * R) :=
  match items with
  | [] => similarities
  | (frame_number, features) :: items' =>
      match last_features with
      | Some last =>
          let sim := Torch.cosine_similarity features last in
          similarity_loop items' (Some features)
            (similarities ++ [(frame_number, sim)])
      | None => similarity_loop items' (Some features) similarities
      end
  end.

Definition calculate_similarities_parallel (cap : VideoCapture) : list (Z * R) :=
  let '(features_dict, _) := sampling_loop cap [] (-1) in
  similarity_loop (Py.sorted features_dict) None [].

(** The [for frame_number, sim in similarities] loop of
    [detect_scene_changes]. *)
Fixpoint selection_loop (threshold percentile : R) (similarities : list (Z * R))
    (scene_changes : list Z) : list Z :=
  match similarities with
  | [] => scene_changes
  | (frame_number, sim) :: rest =>
      if Py.Rleb sim threshold then
        selection_loop threshold percentile rest (scene_changes ++ [frame_number])
      else if Py.Rleb sim percentile then
        selection_loop threshold percentile rest (scene_changes ++ [frame_number])
      else selection_loop threshold percentile rest scene_changes
  end.

(** [detect_scene_changes] from the point where [similarities] is known
    (source lines 133 to 154). *)
Definition segment_similarities (similarities : list (Z * R))
    (alpha frame_per_minute : R) : result (list Z) :=
  _ <- py_assert (truthy similarities) "similarities is empty" ;;
  let similarity_scores := map snd similarities in
  _ <- py_assert (truthy similarity_scores) "similarity_scores is empty" ;;
  let mean_sim := Np.mean similarity_scores in
  let std_sim := Np.std similarity_scores in
  let threshold := mean_sim - alpha * std_sim in
  percentile <-
    Np.percentile similarity_scores (Py.round (1 / 60 * 100 * frame_per_minute)) ;;
  Ok (selection_loop threshold percentile similarities []).

(** The file system: [os.path.isfile] holds of the paths it maps, and
    [cv2.VideoCapture(video_path)] opens the frames found there.  [alpha] and
    [frame_per_minute] are numbers by their type, so the two [isinstance]
    assertions cannot fail. *)
Definition detect_scene_changes (fs : string -> option VideoCapture)
    (video_path : string) (alpha frame_per_minute : R) : result (list Z) :=
  match fs video_path with
  | None => Raise (AssertionError (String.append video_path " does not exist"))
  | Some cap =>
      let similarities := calculate_similarities_parallel cap in
      segment_similarities similarities alpha frame_per_minute
  end.

End SceneExtractor.

Arguments Frame {image} pos_msec pixels.
Arguments pos_msec {image} f.
Arguments pixels {image} f.

(** ** Views of the loops used to state the properties *)

(** A gap of at least one second from [a] to [b]. *)
Definition spaced (a b : R) : Prop := b - a >= 1.

Section Views.

Variable image : Type.
Variable extract_features : image -> Np.ndarray.

(** The timestamp, in seconds, the sampling loop computes for a frame. *)
Definition timestamp_of (fr : frame image) : R := pos_msec fr / 1000.

(** The Frame Sampler: the frames that pass the test
    [timestamp - last_processed_timestamp >= 1.0] of [sampling_loop], in the
    order they are read. *)
Fixpoint frame_sampler (cap : VideoCapture image) (last_processed_timestamp : R)
    : list (frame image) :=
  match cap with
  | [] => []
  | fr :: cap' =>
      if Py.Rgeb (timestamp_of fr - last_processed_timestamp) 1
      then fr :: frame_sampler cap' (timestamp_of fr)
      else frame_sampler cap' last_processed_timestamp
  end.

Definition sampled_frames (cap : VideoCapture image) : list (frame image) :=
  frame_sampler cap (-1).

Definition sampled_timestamps (cap : VideoCapture image) : list R :=
  map timestamp_of (sampled_frames cap).

(** The entry of [features_dict] a sampled frame is stored under. *)
Definition entry_of (fr : frame image) : Z * Np.ndarray :=
  (Py.int (timestamp_of fr), extract_features (pixels fr)).

(** The Similarity Sequencer, without its accumulator: one pair for every
    item that has a predecessor. *)
Fixpoint sequencer (last_features : option Np.ndarray)
    (items : list (Z * Np.ndarray)) : list (Z * R) :=
  match items with
  | [] => []
  | (frame_number, features) :: items' =>
      match last_features with
      | Some last =>
          (frame_number, Torch.cosine_similarity features last)
            :: sequencer (Some features) items'
      | None => sequencer (Some features) items'
      end
  end.

(** The two tests of [selection_loop]. *)
Definition mean_branch (threshold : R) (p : Z * R) : bool :=
  Py.Rleb (snd p) threshold.

Definition percentile_branch (threshold percentile : R) (p : Z * R) : bool :=
  negb (Py.Rleb (snd p) threshold) && Py.Rleb (snd p) percentile.

(** The threshold of [detect_scene_changes] for a similarity sequence. *)
Definition threshold_of (similarities : list (Z * R)) (alpha : R) : R :=
  let similarity_scores := map snd similarities in
  Np.mean similarity_scores - alpha * Np.std similarity_scores.

(** The timestamps the first branch of [selection_loop] appends. *)
Definition mean_triggered (similarities : list (Z * R)) (alpha : R) : list Z :=
  map fst (filter (mean_branch (threshold_of similarities alpha)) similarities).

End Views.

Arguments timestamp_of {image} fr.
Arguments frame_sampler {image} cap last_processed_timestamp.
Arguments sampled_frames {image} cap.
Arguments sampled_timestamps {image} cap.
Arguments entry_of {image} extract_features fr.

(** ** The specification's own wording of the statistics *)

Module Spec.

Definition total (scores : list R) : R := fold_right Rplus 0 scores.

Definition mean (scores : list R) : R := total scores / INR (length scores).




End Spec.

(** ** Concrete inputs *)

Module Examples.

(** A stub network: the pixels of a frame are already its feature vector. *)
Definition pixels_as_features (x : Np.ndarray) : Np.ndarray := x.

(** Four frames of one picture at 0 s, 0.5 s, 1 s and 2 s. *)
Definition still_clip : VideoCapture Np.ndarray :=
  [Frame 0 [1]; Frame 500 [1]; Frame 1000 [1]; Frame 2000 [1]].

(** A clip whose first frame has the zero vector as its embedding. *)
Definition dark_clip : VideoCapture Np.ndarray :=
  [Frame 0 [0]; Frame 1000 [1]].

(** A clip shorter than two sampling intervals. *)
Definition short_clip : VideoCapture Np.ndarray :=
  [Frame 0 [1]; Frame 400 [1]].

(** A file system holding one video. *)
Definition disk (cap : VideoCapture Np.ndarray) (path : string)
    : option (VideoCapture Np.ndarray) :=
  if String.eqb path "clip.mp4" then Some cap else None.

(** The similarity sequence of the specification's end-to-end scenario. *)
Definition scenario : list (Z * R) :=
  [(1%Z, 0.95); (2%Z, 0.10); (3%Z, 0.92); (4%Z, 0.93)].

(** Two identical similarity scores. *)
Definition flat : list (Z * R) := [(1%Z, 1); (2%Z, 1)].


End Examples.

(** ** The preprocessing of [extract_features] *)

Module Preprocess.

(** A frame as [cv2] holds it: height x width x channel, 8-bit values. *)
Definition hwc : Type := list (list (list Z)).

(** A 3-D float32 tensor, outermost axis first. *)
Definition tensor3 : Type := list (list (list Binary32.float)).

(** [torch.from_numpy(img).float()] *)
Definition to_float (img : hwc) : tensor3 := map (map (map Binary32.of_Z)) img.

(** The length of the last axis of a height x width x channel tensor. *)
Definition channels (x : tensor3) : nat :=
  match x with
  | (px :: _) :: _ => length px
  | _ => 0%nat
  end.

(** [x.permute(2, 0, 1)]: the channel axis comes first. *)
Definition permute_2_0_1 (x : tensor3) : tensor3 :=
  map (fun ch => map (map (fun px => nth ch px Binary32.zero)) x)
      (seq 0 (channels x)).

(** [x / 255.0]: the float32 tensor divided by a Python float. *)
Definition div_scalar (x : tensor3) (d : Binary64.float) : tensor3 :=
  map (map (map (fun v => Binary32.div v (Binary32.of_binary64 d)))) x.

(** [torch.tensor([0.485, 0.456, 0.406])] and
    [torch.tensor([0.229, 0.224, 0.225])], float32 tensors. *)
Definition mean : list Binary32.float :=
  map Binary32.of_binary64
      [Binary64.literal 485 1000; Binary64.literal 456 1000; Binary64.literal 406 1000].

Definition std : list Binary32.float :=
  map Binary32.of_binary64
      [Binary64.literal 229 1000; Binary64.literal 224 1000; Binary64.literal 225 1000].

(** [(x - mean) / std] for a 3 x H x W tensor [x] and [mean], [std] viewed
    as (1, 3, 1, 1): each channel plane is shifted and scaled by its own
    constants, and broadcasting adds a leading axis of length 1. *)
Definition normalize (x : tensor3) : list tensor3 :=
  [map (fun pm =>
          map (map (fun v => Binary32.div (Binary32.sub v (fst (snd pm)))
                                          (snd (snd pm))))
              (fst pm))
       (combine x (combine mean std))].

Section Network.

Variable image : Type.

(** [cv2.resize(frame, (224, 224))] *)
Variable resize : image -> hwc.

(** The truncated ResNet50, with [features.numpy()] flattened. *)
Variable base_model : list tensor3 -> Np.ndarray.

(** The tensor [extract_features] hands to [base_model]. *)
Definition network_input (frame : image) : list tensor3 :=
  let img := resize frame in
  let x := to_float img in
  let x := div_scalar (permute_2_0_1 x) (Binary64.of_Z 255) in
  normalize x.

Definition extract_features (frame : image) : Np.ndarray :=
  base_model (network_input frame).

End Network.

(** A height x width picture with three 8-bit channels. *)
Definition well_formed (height width : nat) (img : hwc) : Prop :=
  length img = height
  /\ Forall (fun row =>
               length row = width
               /\ Forall (fun px => length px = 3%nat
                                    /\ Forall (fun v => (0 <= v <= 255)%Z) px) row) img.

(** The shape (1, 3, height, width). *)
Definition has_shape (height width : nat) (t : list tensor3) : Prop :=
  length t = 1%nat
  /\ Forall (fun x => length x = 3%nat
                      /\ Forall (fun plane => length plane = height
                                              /\ Forall (fun row => length row = width)
                                                        plane) x) t.

(** Every entry is a finite float between [lo] and [hi]. *)
Definition in_range (lo hi : R) (t : list tensor3) : Prop :=
  Forall (Forall (Forall (Forall
    (fun v => Binary32.is_finite v = true /\ lo <= Binary32.to_R v <= hi)))) t.

(** The float32 the preprocessing computes from one 8-bit channel value:
    [(v / 255 - mean[ch]) / std[ch]], each step rounded. *)
Definition normalized (ch : nat) (v : Z) : Binary32.float :=
  Binary32.div
    (Binary32.sub
       (Binary32.div (Binary32.of_Z v) (Binary32.of_binary64 (Binary64.of_Z 255)))
       (nth ch mean Binary32.zero))
    (nth ch std Binary32.zero).

(** The check of every channel and every 8-bit value against the bounds
    -2.118 and 2.6400002. *)
Definition all_normalized_in_bounds : bool :=
  forallb (fun ch =>
             forallb (fun v =>
                        Binary32.geb_ratio (normalized ch (Z.of_nat v)) (-2118) 1000
                        && Binary32.leb_ratio (normalized ch (Z.of_nat v))
                                              26400002 10000000)
                     (seq 0 256))
          (seq 0 3).

(** A stub [resize]: a grey 224 x 224 picture of the given level. *)
Definition grey (level : Z) : hwc :=
  repeat (repeat [level; level; level] 224) 224.

End Preprocess.

Arguments sampling_loop {image} extract_features cap features_dict last_processed_timestamp.
Arguments calculate_similarities_parallel {image} extract_features cap.
Arguments detect_scene_changes {image} extract_features fs video_path alpha frame_per_minute.

(** ** The percentile rank in binary64 *)

(** A number, as [isinstance(x, (int, float))] lets through: an int of any
    size or a binary64 float, infinities and NaN included. *)
Inductive number : Type :=
| PyInt (z : Z)
| PyFloat (x : Binary64.float).

(** The float operand a number becomes in a product with a float: a float
    is itself, an int is rounded to the nearest float, and an int beyond
    the range of binary64 raises. *)
Definition as_float (n : number) : result Binary64.float :=
  match n with
  | PyFloat x => Ok x
  | PyInt z =>
      match Binary64.of_Z z with
      | S754_infinity _ => Raise (OverflowError "int too large to convert to float")
      | x => Ok x
      end
  end.

(** A real [alpha] in the range of binary64: what a finite float, or an int
    that converts to one, stands for. *)
Definition finite_number (alpha : R) : Prop :=
  - IZR Binary64.max_value <= alpha <= IZR Binary64.max_value.

(** [1 / 60 * 100 * frame_per_minute] as Python evaluates it: left to
    right, each step rounded. *)
Definition rank_product (frame_per_minute : Binary64.float) : Binary64.float :=
  Binary64.mul
    (Binary64.mul (Binary64.div (Binary64.of_Z 1) (Binary64.of_Z 60))
                  (Binary64.of_Z 100))
    frame_per_minute.

(** [round(1 / 60 * 100 * frame_per_minute)] *)
Definition percentile_rank_binary64 (frame_per_minute : number) : result Z :=
  x <- as_float frame_per_minute ;;
  Binary64.round (rank_product x).

(** [detect_scene_changes] from the point where [similarities] is known
    (source lines 133 to 154), with [frame_per_minute] a Python number and
    the rank computed from it in binary64; the scores and [alpha] stay
    real. *)
Definition segment_similarities_binary64 (similarities : list (Z * R))
    (alpha : R) (frame_per_minute : number) : result (list Z) :=
  _ <- py_assert (truthy similarities) "similarities is empty" ;;
  let similarity_scores := map snd similarities in
  _ <- py_assert (truthy similarity_scores) "similarity_scores is empty" ;;
  let mean_sim := Np.mean similarity_scores in
  let std_sim := Np.std similarity_scores in
  let threshold := mean_sim - alpha * std_sim in
  rank <- percentile_rank_binary64 frame_per_minute ;;
  percentile <- Np.percentile similarity_scores rank ;;
  Ok (selection_loop threshold percentile similarities []).

Definition detect_scene_changes_binary64 {image : Type}
    (extract_features : image -> Np.ndarray)
    (fs : string -> option (VideoCapture image))
    (video_path : string) (alpha : R) (frame_per_minute : number)
    : result (list Z) :=
  match fs video_path with
  | None => Raise (AssertionError (String.append video_path " does not exist"))
  | Some cap =>
      let similarities := calculate_similarities_parallel extract_features cap in
      segment_similarities_binary64 similarities alpha frame_per_minute
  end.

(** ** Comparisons *)

Lemma Rleb_true (x y : R) : Py.Rleb x y = true <-> x <= y.
Proof. unfold Py.Rleb; destruct (Rle_dec x y); split; intros; try discriminate; tauto. Qed.

Lemma Rleb_false (x y : R) : Py.Rleb x y = false <-> y < x.
Proof.
  unfold Py.Rleb; destruct (Rle_dec x y); split; intros; try discriminate; try lra; reflexivity.
Qed.

Lemma Rgeb_true (x y : R) : Py.Rgeb x y = true <-> x >= y.
Proof. unfold Py.Rgeb; destruct (Rge_dec x y); split; intros; try discriminate; tauto. Qed.

Lemma Rgeb_false (x y : R) : Py.Rgeb x y = false <-> x < y.
Proof.
  unfold Py.Rgeb; destruct (Rge_dec x y); split; intros; try discriminate; try lra; reflexivity.
Qed.



(** ** Integer parts *)

Lemma Int_part_bounds (x : R) : IZR (Int_part x) <= x < IZR (Int_part x) + 1.
Proof. destruct (base_Int_part x); lra. Qed.

Lemma Int_part_eq (x : R) (z : Z) : IZR z <= x < IZR z + 1 -> Int_part x = z.
Proof. intros H. symmetry. apply Int_part_spec. lra. Qed.

Lemma Int_part_IZR (z : Z) : Int_part (IZR z) = z.
Proof. apply Int_part_eq. lra. Qed.

Lemma int_nonneg (x : R) : 0 <= x -> Py.int x = Int_part x.
Proof. intros H. unfold Py.int. destruct (Rle_dec 0 x); [reflexivity | contradiction]. Qed.

Lemma int_eq (x : R) (z : Z) : 0 <= x -> IZR z <= x < IZR z + 1 -> Py.int x = z.
Proof. intros H0 H. rewrite int_nonneg by assumption. now apply Int_part_eq. Qed.

(** Two non-negative timestamps at least a second apart truncate to
    different, ordered seconds. *)
Lemma int_spaced (a b : R) : 0 <= a -> b - a >= 1 -> (Py.int a < Py.int b)%Z.
Proof.
  intros Ha Hab.
  rewrite !int_nonneg by lra.
  pose proof (Int_part_bounds a) as Ba.
  pose proof (Int_part_bounds b) as Bb.
  apply lt_IZR. lra.
Qed.

Lemma round_IZR (z : Z) : Py.round (IZR z) = z.
Proof.
  unfold Py.round. rewrite Int_part_IZR.
  destruct (Rlt_dec (IZR z - IZR z) (1 / 2)); [reflexivity | exfalso; lra].
Qed.

(** ** The Frame Sampler *)

Section Sampling.

Context {image : Type}.
Variable extract_features : image -> Np.ndarray.

Lemma frame_sampler_spaced (cap : VideoCapture image) (last : R) :
  StronglySorted spaced (last :: map timestamp_of (frame_sampler cap last)).
Proof.
  revert last. induction cap as [| fr cap IH]; intros last; simpl.
  - repeat constructor.
  - destruct (Py.Rgeb (timestamp_of fr - last) 1) eqn:E.
    + apply Rgeb_true in E. simpl.
      specialize (IH (timestamp_of fr)).
      pose proof (StronglySorted_inv IH) as [_ Hall].
      constructor; [exact IH |].
      constructor; [exact E |].
      eapply Forall_impl; [| exact Hall].
      unfold spaced. intros b Hb. lra.
    + apply IH.
Qed.

Lemma sampled_timestamps_spaced (cap : VideoCapture image) :
  StronglySorted spaced (sampled_timestamps cap).
Proof.
  pose proof (frame_sampler_spaced cap (-1)) as H.
  now apply StronglySorted_inv in H.
Qed.

Lemma sampled_timestamps_nonneg (cap : VideoCapture image) :
  Forall (fun t => 0 <= t) (sampled_timestamps cap).
Proof.
  pose proof (frame_sampler_spaced cap (-1)) as H.
  apply StronglySorted_inv in H. destruct H as [_ H].
  eapply Forall_impl; [| exact H]. unfold spaced. intros t Ht. lra.
Qed.

(** The seconds the sampled frames are stored under increase strictly. *)
Lemma spaced_int_increasing (ts : list R) :
  Forall (fun t => 0 <= t) ts -> StronglySorted spaced ts ->
  StronglySorted Z.lt (map Py.int ts).
Proof.
  induction ts as [| a ts IH]; intros Hpos Hs; simpl.
  - constructor.
  - inversion Hpos as [| ? ? Ha Hts]; subst.
    apply StronglySorted_inv in Hs. destruct Hs as [Hs Hall].
    constructor; [now apply IH |].
    apply Forall_map. eapply Forall_impl; [| exact Hall].
    intros b Hb. now apply int_spaced.
Qed.

Lemma sampled_keys_increasing (cap : VideoCapture image) :
  StronglySorted Z.lt (map Py.int (sampled_timestamps cap)).
Proof.
  apply spaced_int_increasing.
  - apply sampled_timestamps_nonneg.
  - apply sampled_timestamps_spaced.
Qed.

(** *** [features_dict] after the sampling loop *)

Lemma setitem_fresh {V : Type} (d : Py.OrderedDict V) (k : Z) (v : V) :
  Forall (fun k' => (k' < k)%Z) (map fst d) -> Py.setitem d k v = d ++ [(k, v)].
Proof.
  induction d as [| [k' v'] d IH]; intros H; simpl.
  - reflexivity.
  - inversion H as [| ? ? Hk Hd]; subst. simpl in Hk.
    destruct (Z.eqb_spec k' k); [lia |].
    now rewrite IH.
Qed.

Lemma sampling_loop_fold (cap : VideoCapture image)
    (d : Py.OrderedDict Np.ndarray) (last : R) :
  fst (sampling_loop extract_features cap d last) =
  fold_left (fun d fr => Py.setitem d (fst (entry_of extract_features fr))
                           (snd (entry_of extract_features fr)))
            (frame_sampler cap last) d.
Proof.
  revert d last. induction cap as [| fr cap IH]; intros d last; simpl.
  - reflexivity.
  - fold (timestamp_of fr).
    destruct (Py.Rgeb (timestamp_of fr - last) 1); simpl; apply IH.
Qed.

Lemma fold_setitem_increasing (frs : list (frame image))
    (d : Py.OrderedDict Np.ndarray) :
  StronglySorted Z.lt (map fst d ++ map Py.int (map timestamp_of frs)) ->
  fold_left (fun d fr => Py.setitem d (fst (entry_of extract_features fr))
                           (snd (entry_of extract_features fr))) frs d =
  d ++ map (entry_of extract_features) frs.
Proof.
  revert d. induction frs as [| fr frs IH]; intros d H; simpl.
  - now rewrite app_nil_r.
  - rewrite setitem_fresh.
    + rewrite IH.
      * now rewrite <- app_assoc.
      * rewrite map_app. simpl. rewrite <- app_assoc. exact H.
    + simpl in H. clear IH.
      induction d as [| [k v] d IHd]; simpl in *; [constructor |].
      apply StronglySorted_inv in H. destruct H as [Hs Hall].
      constructor.
      * rewrite Forall_forall in Hall. apply Hall.
        apply in_or_app. right. now left.
      * now apply IHd.
Qed.

Lemma features_dict_entries (cap : VideoCapture image) :
  fst (sampling_loop extract_features cap [] (-1)) =
  map (entry_of extract_features) (sampled_frames cap).
Proof.
  rewrite sampling_loop_fold.
  rewrite fold_setitem_increasing; [reflexivity |].
  simpl. apply sampled_keys_increasing.
Qed.

Lemma last_cons {A : Type} (a d : A) (l : list A) : List.last (a :: l) d = List.last l a.
Proof.
  revert a d. induction l as [| b l IH]; intros a d; [reflexivity |].
  change (List.last (a :: b :: l) d) with (List.last (b :: l) d).
  now rewrite !IH.
Qed.

(** [last_processed_timestamp] after the loop is the timestamp of the last
    sampled frame. *)
Lemma sampling_loop_last (cap : VideoCapture image)
    (d : Py.OrderedDict Np.ndarray) (t0 : R) :
  snd (sampling_loop extract_features cap d t0) =
  List.last (map timestamp_of (frame_sampler cap t0)) t0.
Proof.
  revert d t0. induction cap as [| fr cap IH]; intros d t0; simpl.
  - reflexivity.
  - fold (timestamp_of fr).
    destruct (Py.Rgeb (timestamp_of fr - t0) 1); simpl.
    + rewrite IH.
      destruct (map timestamp_of (frame_sampler cap (timestamp_of fr)));
        [reflexivity | now rewrite !last_cons].
    + apply IH.
Qed.

Lemma entry_keys (frs : list (frame image)) :
  map fst (map (entry_of extract_features) frs) = map Py.int (map timestamp_of frs).
Proof. rewrite !map_map. reflexivity. Qed.

(** *** [sorted] on a dict whose keys already increase *)

Lemma sorted_increasing {V : Type} (items : list (Z * V)) :
  StronglySorted Z.lt (map fst items) -> Py.sorted items = items.
Proof.
  induction items as [| x items IH]; intros H; simpl.
  - reflexivity.
  - simpl in H. apply StronglySorted_inv in H. destruct H as [Hs Hall].
    rewrite (IH Hs).
    destruct items as [| y items]; simpl; [reflexivity |].
    inversion Hall as [| ? ? Hxy _]; subst.
    destruct (Z.leb_spec (fst x) (fst y)); [reflexivity | lia].
Qed.

(** *** The similarity loop *)

Lemma similarity_loop_sequencer (items : list (Z * Np.ndarray))
    (last : option Np.ndarray) (acc : list (Z * R)) :
  similarity_loop items last acc = acc ++ sequencer last items.
Proof.
  revert last acc. induction items as [| [k f] items IH]; intros last acc; simpl.
  - now rewrite app_nil_r.
  - destruct last as [l |].
    + rewrite IH, <- app_assoc. reflexivity.
    + apply IH.
Qed.

(** [calculate_similarities_parallel] is the sequencer run over the sampled
    frames. *)
Lemma calculate_similarities_sequencer (cap : VideoCapture image) :
  calculate_similarities_parallel extract_features cap =
  sequencer None (map (entry_of extract_features) (sampled_frames cap)).
Proof.
  unfold calculate_similarities_parallel.
  pose proof (features_dict_entries cap) as H.
  destruct (sampling_loop extract_features cap [] (-1)) as [d l]. simpl in H. subst d.
  rewrite similarity_loop_sequencer. simpl.
  rewrite sorted_increasing; [reflexivity |].
  rewrite entry_keys. apply sampled_keys_increasing.
Qed.

Lemma sequencer_Some_keys (items : list (Z * Np.ndarray)) (last : Np.ndarray) :
  map fst (sequencer (Some last) items) = map fst items.
Proof.
  revert last. induction items as [| [k f] items IH]; intros last; simpl.
  - reflexivity.
  - now rewrite IH.
Qed.

Lemma sequencer_None_keys (items : list (Z * Np.ndarray)) :
  map fst (sequencer None items) = map fst (tl items).
Proof.
  destruct items as [| [k f] items]; simpl; [reflexivity |].
  apply sequencer_Some_keys.
Qed.

Lemma sequencer_Some_nth (items : list (Z * Np.ndarray)) (last : Np.ndarray) (i : nat)
    (prev : Np.ndarray) (cur : Z * Np.ndarray) :
  nth_error (last :: map snd items) i = Some prev ->
  nth_error items i = Some cur ->
  nth_error (sequencer (Some last) items) i =
  Some (fst cur, Torch.cosine_similarity (snd cur) prev).
Proof.
  revert last i prev. induction items as [| [k f] items IH]; intros last i prev Hp Hc.
  - destruct i; discriminate.
  - destruct i as [| i]; simpl in *.
    + inversion Hp; inversion Hc; subst. reflexivity.
    + apply IH; [exact Hp | exact Hc].
Qed.

Lemma sequencer_None_nth (items : list (Z * Np.ndarray)) (i : nat)
    (prev cur : Z * Np.ndarray) :
  nth_error items i = Some prev ->
  nth_error items (S i) = Some cur ->
  nth_error (sequencer None items) i =
  Some (fst cur, Torch.cosine_similarity (snd cur) (snd prev)).
Proof.
  destruct items as [| [k f] items]; intros Hp Hc; [destruct i; discriminate |].
  simpl in Hc. simpl sequencer.
  apply sequencer_Some_nth; [| exact Hc].
  apply (map_nth_error snd) in Hp. exact Hp.
Qed.

End Sampling.

(** ** numpy's statistics *)

Lemma sum_fold_left (a : list R) (x : R) :
  fold_left Rplus a x = x + Spec.total a.
Proof.
  revert x. induction a as [| y a IH]; intros x; simpl.
  - lra.
  - rewrite IH. unfold Spec.total. simpl. lra.
Qed.

Lemma sum_total (a : list R) : Np.sum a = Spec.total a.
Proof. unfold Np.sum. rewrite sum_fold_left. lra. Qed.

Lemma mean_spec (a : list R) : Np.mean a = Spec.mean a.
Proof. unfold Np.mean, Spec.mean. now rewrite sum_total. Qed.


Lemma std_nonneg (a : list R) : 0 <= Np.std a.
Proof. unfold Np.std. apply sqrt_pos. Qed.

Lemma total_constant (a : list R) (s : R) :
  Forall (fun x => x = s) a -> Spec.total a = INR (length a) * s.
Proof.
  induction 1 as [| x a Hx Ha IH].
  - simpl. lra.
  - unfold Spec.total in *. cbn [fold_right length]. rewrite IH, S_INR. subst x. lra.
Qed.

Lemma mean_constant (a : list R) (s : R) :
  a <> [] -> Forall (fun x => x = s) a -> Np.mean a = s.
Proof.
  intros Hne Hall. rewrite mean_spec. unfold Spec.mean.
  rewrite (total_constant a s Hall).
  assert (0 < INR (length a)).
  { apply lt_0_INR. destruct a; [contradiction | simpl; lia]. }
  field. lra.
Qed.

Lemma std_constant (a : list R) (s : R) :
  a <> [] -> Forall (fun x => x = s) a -> Np.std a = 0.
Proof.
  intros Hne Hall. unfold Np.std.
  rewrite (mean_constant a s Hne Hall).
  rewrite (mean_constant _ 0).
  - apply sqrt_0.
  - destruct a; [contradiction | discriminate].
  - apply Forall_map. eapply Forall_impl; [| exact Hall].
    intros x Hx. simpl in Hx. subst x. lra.
Qed.

Lemma insert_length (x : R) (l : list R) : length (Np.insert x l) = S (length l).
Proof.
  induction l as [| y l IH]; simpl; [reflexivity |].
  destruct (Rle_dec x y); simpl; [reflexivity | now rewrite IH].
Qed.

Lemma sort_length (a : list R) : length (Np.sort a) = length a.
Proof.
  induction a as [| x a IH]; simpl; [reflexivity |].
  unfold Np.sort in *. rewrite insert_length. now rewrite IH.
Qed.

Lemma insert_Forall (P : R -> Prop) (x : R) (l : list R) :
  P x -> Forall P l -> Forall P (Np.insert x l).
Proof.
  intros Hx. induction 1 as [| y l Hy Hl IH]; simpl.
  - now constructor.
  - destruct (Rle_dec x y); repeat constructor; assumption.
Qed.

Lemma sort_Forall (P : R -> Prop) (a : list R) : Forall P a -> Forall P (Np.sort a).
Proof.
  induction 1 as [| x a Hx Ha IH]; simpl; [constructor |].
  now apply insert_Forall.
Qed.

Lemma nth_Forall (P : R -> Prop) (l : list R) (i : nat) :
  Forall P l -> (i < length l)%nat -> P (nth i l 0).
Proof.
  intros H Hi. rewrite Forall_forall in H. apply H. now apply nth_In.
Qed.

Lemma percentile_in_range (a : list R) (q : Z) :
  (0 <= q <= 100)%Z -> exists v, Np.percentile a q = Ok v.
Proof.
  intros [H0 H1]. unfold Np.percentile.
  destruct (Z.leb_spec 0 q); [| lia].
  destruct (Z.leb_spec q 100); [| lia].
  simpl. eexists. reflexivity.
Qed.

Lemma percentile_out_of_range (a : list R) (q : Z) :
  (q < 0 \/ 100 < q)%Z ->
  Np.percentile a q = Raise (ValueError "Percentiles must be in the range [0, 100]").
Proof.
  intros H. unfold Np.percentile.
  destruct (Z.leb_spec 0 q); destruct (Z.leb_spec q 100); simpl; try reflexivity; lia.
Qed.

(** Rank 0 is the minimum: the first element of the sorted scores. *)
Lemma percentile_0 (a : list R) : Np.percentile a 0 = Ok (nth 0 (Np.sort a) 0).
Proof.
  unfold Np.percentile. simpl.
  replace ((INR (length (Np.sort a)) - 1) * (0 / 100)) with (IZR 0) by lra.
  rewrite Int_part_IZR. simpl. f_equal. lra.
Qed.

Lemma percentile_constant (a : list R) (s : R) (q : Z) :
  a <> [] -> Forall (fun x => x = s) a -> (0 <= q <= 100)%Z ->
  Np.percentile a q = Ok s.
Proof.
  intros Hne Hall [H0 H1]. unfold Np.percentile.
  destruct (Z.leb_spec 0 q); [| lia].
  destruct (Z.leb_spec q 100); [| lia].
  cbn [andb]. cbv zeta. rewrite sort_length.
  set (n := length a).
  assert (Hn : (0 < n)%nat) by (subst n; destruct a; [contradiction | simpl; lia]).
  set (vi := (INR n - 1) * (IZR q / 100)).
  assert (Hvi : 0 <= vi <= INR n - 1).
  { assert (1 <= INR n) by (change 1 with (INR 1); apply le_INR; lia).
    assert (0 <= IZR q / 100 <= 1).
    { apply IZR_le in H0, H1. lra. }
    subst vi. split; nra. }
  pose proof (Int_part_bounds vi) as B.
  assert (Hlo : (0 <= Int_part vi < Z.of_nat n)%Z).
  { split.
    - apply Z.lt_succ_r. apply lt_IZR. rewrite succ_IZR. lra.
    - apply lt_IZR. rewrite <- INR_IZR_INZ. lra. }
  pose proof (sort_Forall _ a Hall) as Hs.
  assert (Hp : (Z.to_nat (Int_part vi) < n)%nat) by lia.
  rewrite (nth_Forall _ _ (Z.to_nat (Int_part vi)) Hs) by (rewrite sort_length; exact Hp).
  rewrite (nth_Forall _ _ (Nat.min _ _) Hs) by (rewrite sort_length; fold n; lia).
  f_equal. lra.
Qed.

(** The two order statistics and the weight [np.percentile] interpolates
    with. *)
Lemma percentile_interpolation (a : list R) (q : Z) :
  a <> [] -> (0 <= q <= 100)%Z ->
  let n := length a in
  let vi := (INR n - 1) * (IZR q / 100) in
  let lo := Z.to_nat (Int_part vi) in
  let hi := Nat.min (S lo) (n - 1) in
  (lo <= hi < n)%nat
  /\ INR lo <= vi < INR lo + 1
  /\ Np.percentile a q =
     Ok (nth lo (Np.sort a) 0
         + (nth hi (Np.sort a) 0 - nth lo (Np.sort a) 0) * (vi - INR lo)).
Proof.
  intros Hne [H0 H1] n vi lo hi.
  assert (Hn : (0 < n)%nat) by (subst n; destruct a; [contradiction | simpl; lia]).
  assert (Hvi : 0 <= vi <= INR n - 1).
  { assert (1 <= INR n) by (change 1 with (INR 1); apply le_INR; lia).
    assert (0 <= IZR q / 100 <= 1) by (apply IZR_le in H0, H1; lra).
    subst vi. split; nra. }
  pose proof (Int_part_bounds vi) as B.
  assert (Hlo : (0 <= Int_part vi < Z.of_nat n)%Z).
  { split.
    - apply Z.lt_succ_r. apply lt_IZR. rewrite succ_IZR. lra.
    - apply lt_IZR. rewrite <- INR_IZR_INZ. lra. }
  assert (Elo : INR lo = IZR (Int_part vi)).
  { subst lo. rewrite INR_IZR_INZ, Z2Nat.id by lia. reflexivity. }
  split; [subst lo hi; lia |].
  split; [rewrite Elo; exact B |].
  unfold Np.percentile.
  destruct (Z.leb_spec 0 q); [| lia].
  destruct (Z.leb_spec q 100); [| lia].
  cbn [andb]. cbv zeta. rewrite sort_length. fold n. fold vi. fold lo. fold hi.
  rewrite <- Elo. reflexivity.
Qed.

(** ** The Scene Segmenter *)

Lemma selection_loop_filter (threshold percentile : R) (sims : list (Z * R))
    (acc : list Z) :
  selection_loop threshold percentile sims acc =
  acc ++ map fst (filter (fun p => mean_branch threshold p
                                   || percentile_branch threshold percentile p) sims).
Proof.
  revert acc. induction sims as [| [k s] sims IH]; intros acc; simpl.
  - now rewrite app_nil_r.
  - unfold mean_branch, percentile_branch. simpl.
    destruct (Py.Rleb s threshold); simpl.
    + rewrite IH, <- app_assoc. reflexivity.
    + destruct (Py.Rleb s percentile); simpl.
      * rewrite IH, <- app_assoc. reflexivity.
      * apply IH.
Qed.



Lemma rank_0 : Py.round (1 / 60 * 100 * 0) = 0%Z.
Proof. replace (1 / 60 * 100 * 0) with (IZR 0) by lra. apply round_IZR. Qed.



Lemma segment_similarities_empty (alpha frame_per_minute : R) :
  segment_similarities [] alpha frame_per_minute =
  Raise (AssertionError "similarities is empty").
Proof. reflexivity. Qed.

Lemma segment_similarities_percentile (sims : list (Z * R)) (alpha frame_per_minute : R) :
  sims <> [] ->
  segment_similarities sims alpha frame_per_minute =
  percentile <- Np.percentile (map snd sims)
                  (Py.round (1 / 60 * 100 * frame_per_minute)) ;;
  Ok (selection_loop (threshold_of sims alpha) percentile sims []).
Proof.
  intros H. destruct sims as [| p sims]; [contradiction |]. reflexivity.
Qed.

Lemma segment_similarities_run (sims : list (Z * R)) (alpha frame_per_minute pct : R) :
  sims <> [] ->
  Np.percentile (map snd sims) (Py.round (1 / 60 * 100 * frame_per_minute)) = Ok pct ->
  segment_similarities sims alpha frame_per_minute =
  Ok (selection_loop (threshold_of sims alpha) pct sims []).
Proof.
  intros Hne Hp. rewrite segment_similarities_percentile by assumption.
  now rewrite Hp.
Qed.


Lemma detect_scene_changes_segment {image : Type} (extract_features : image -> Np.ndarray)
    (fs : string -> option (VideoCapture image)) (video_path : string)
    (cap : VideoCapture image) (alpha frame_per_minute : R) :
  fs video_path = Some cap ->
  detect_scene_changes extract_features fs video_path alpha frame_per_minute =
  segment_similarities (calculate_similarities_parallel extract_features cap)
    alpha frame_per_minute.
Proof. intros H. unfold detect_scene_changes. now rewrite H. Qed.

(** A constant similarity sequence: the threshold at [alpha = 0] and every
    percentile are the constant, and the first test of the loop holds for
    every pair. *)
Lemma threshold_constant (sims : list (Z * R)) (s : R) :
  sims <> [] -> Forall (fun p => snd p = s) sims -> threshold_of sims 0 = s.
Proof.
  intros Hne Hall. unfold threshold_of.
  assert (Hs : Forall (fun x => x = s) (map snd sims)) by now apply Forall_map.
  assert (Hn : map snd sims <> []) by (destruct sims; [contradiction | discriminate]).
  rewrite (mean_constant _ s Hn Hs), (std_constant _ s Hn Hs). lra.
Qed.

Lemma filter_all {A : Type} (f : A -> bool) (l : list A) :
  Forall (fun x => f x = true) l -> filter f l = l.
Proof.
  induction 1 as [| x l Hx Hl IH]; simpl; [reflexivity |].
  now rewrite Hx, IH.
Qed.

Lemma selection_all_below_cutoff (threshold percentile : R) (sims : list (Z * R)) :
  Forall (fun p => snd p <= percentile) sims ->
  selection_loop threshold percentile sims [] = map fst sims.
Proof.
  intros Hall. rewrite selection_loop_filter. simpl. rewrite filter_all; [reflexivity |].
  eapply Forall_impl; [| exact Hall]. intros p Hp.
  unfold mean_branch, percentile_branch.
  destruct (Py.Rleb (snd p) threshold); simpl; [reflexivity |].
  now apply Rleb_true.
Qed.

Lemma filter_none {A : Type} (f : A -> bool) (l : list A) :
  Forall (fun x => f x = false) l -> filter f l = [].
Proof.
  induction 1 as [| x l Hx Hl IH]; simpl; [reflexivity |].
  now rewrite Hx, IH.
Qed.

Lemma mean_triggered_constant (sims : list (Z * R)) (s : R) :
  sims <> [] -> Forall (fun p => snd p = s) sims ->
  mean_triggered sims 0 = map fst sims.
Proof.
  intros Hne Hall. unfold mean_triggered.
  rewrite (threshold_constant sims s Hne Hall).
  rewrite filter_all; [reflexivity |].
  eapply Forall_impl; [| exact Hall].
  intros p Hp. unfold mean_branch. apply Rleb_true. simpl in Hp. lra.
Qed.

Lemma segment_similarities_constant (sims : list (Z * R)) (s : R) :
  sims <> [] -> Forall (fun p => snd p = s) sims ->
  segment_similarities sims 0 0 = Ok (map fst sims).
Proof.
  intros Hne Hall.
  assert (Hs : Forall (fun x => x = s) (map snd sims)) by now apply Forall_map.
  assert (Hn : map snd sims <> []) by (destruct sims; [contradiction | discriminate]).
  rewrite (segment_similarities_run sims 0 0 s Hne).
  - rewrite selection_loop_filter, (threshold_constant sims s Hne Hall). simpl.
    rewrite filter_all; [reflexivity |].
    eapply Forall_impl; [| exact Hall].
    intros p Hp. simpl in Hp. apply orb_true_iff. left.
    unfold mean_branch. apply Rleb_true. lra.
  - rewrite rank_0. apply percentile_constant; [assumption | assumption | lia].
Qed.

(** ** Cosine similarity *)

Lemma total_squares_zero (x : list R) :
  Spec.total (map (fun c => c * c) x) = 0 -> Forall (fun c => c = 0) x.
Proof.
  induction x as [| c x IH]; intros H; [constructor |].
  unfold Spec.total in *. simpl in H.
  assert (Hx : 0 <= fold_right Rplus 0 (map (fun c => c * c) x)).
  { clear. induction x as [| d x IHx]; simpl; [lra | nra]. }
  assert (Hc : 0 <= c * c) by nra.
  constructor; [nra | apply IH; lra].
Qed.

Lemma total_squares_nonneg (x : list R) : 0 <= Spec.total (map (fun c => c * c) x).
Proof. unfold Spec.total. induction x as [| d x IHx]; simpl; [lra | nra]. Qed.

Lemma norm_zero (x : Np.ndarray) : Torch.norm x = 0 -> Forall (fun c => c = 0) x.
Proof.
  unfold Torch.norm. rewrite sum_total. intros H.
  apply total_squares_zero. apply sqrt_eq_0; [apply total_squares_nonneg | exact H].
Qed.

Lemma dot_zero_l (x1 x2 : Np.ndarray) :
  Forall (fun c => c = 0) x1 -> Torch.dot x1 x2 = 0.
Proof.
  intros H. unfold Torch.dot. rewrite sum_total. unfold Spec.total.
  revert x2. induction H as [| c x1 Hc H1 IH]; intros x2; [reflexivity |].
  destruct x2 as [| d x2]; simpl; [reflexivity |].
  rewrite IH. subst c. lra.
Qed.

Lemma dot_zero_r (x1 x2 : Np.ndarray) :
  Forall (fun c => c = 0) x2 -> Torch.dot x1 x2 = 0.
Proof.
  intros H. unfold Torch.dot. rewrite sum_total. unfold Spec.total.
  revert x1. induction H as [| c x2 Hc H2 IH]; intros x1.
  - destruct x1; reflexivity.
  - destruct x1 as [| d x1]; simpl; [reflexivity |].
    rewrite IH. subst c. lra.
Qed.

(** With a zero-norm argument the quotient is [0 / (eps * ...)], that is 0. *)
Lemma cosine_similarity_zero_norm (x1 x2 : Np.ndarray) :
  Torch.norm x1 = 0 \/ Torch.norm x2 = 0 -> Torch.cosine_similarity x1 x2 = 0.
Proof.
  intros [H | H]; apply norm_zero in H; unfold Torch.cosine_similarity.
  - rewrite dot_zero_l by assumption. unfold Rdiv. apply Rmult_0_l.
  - rewrite dot_zero_r by assumption. unfold Rdiv. apply Rmult_0_l.
Qed.

Lemma cosine_similarity_unit : Torch.cosine_similarity [1] [1] = 1.
Proof.
  unfold Torch.cosine_similarity, Torch.dot, Torch.norm, Np.sum, Torch.eps. simpl.
  replace (0 + 1 * 1) with 1 by lra. rewrite sqrt_1.
  rewrite Rmax_left by lra. lra.
Qed.

(** ** The concrete inputs, evaluated *)

Ltac sampler_step :=
  cbn [frame_sampler]; unfold timestamp_of; cbn [pos_msec];
  match goal with
  | |- context [Py.Rgeb ?a ?b] =>
      first [ rewrite (proj2 (Rgeb_true a b)) by lra
            | rewrite (proj2 (Rgeb_false a b)) by lra ]
  end.

Lemma sampled_still_clip :
  sampled_frames Examples.still_clip = [Frame 0 [1]; Frame 1000 [1]; Frame 2000 [1]].
Proof.
  unfold sampled_frames, Examples.still_clip. repeat sampler_step. reflexivity.
Qed.

Lemma sampled_dark_clip :
  sampled_frames Examples.dark_clip = [Frame 0 [0]; Frame 1000 [1]].
Proof.
  unfold sampled_frames, Examples.dark_clip. repeat sampler_step. reflexivity.
Qed.

Lemma sampled_short_clip :
  sampled_frames Examples.short_clip = [Frame 0 [1]].
Proof.
  unfold sampled_frames, Examples.short_clip. repeat sampler_step. reflexivity.
Qed.

Lemma int_1000 : Py.int (1000 / 1000) = 1%Z.
Proof. apply int_eq; lra. Qed.

Lemma int_2000 : Py.int (2000 / 1000) = 2%Z.
Proof. apply int_eq; lra. Qed.

Lemma norm_zero_vector : Torch.norm [0] = 0.
Proof.
  unfold Torch.norm, Np.sum. simpl.
  replace (0 + 0 * 0) with 0 by lra. apply sqrt_0.
Qed.

Lemma similarities_still_clip :
  calculate_similarities_parallel Examples.pixels_as_features Examples.still_clip =
  Examples.flat.
Proof.
  rewrite calculate_similarities_sequencer, sampled_still_clip.
  unfold entry_of, timestamp_of, Examples.pixels_as_features, Examples.flat.
  cbn [map sequencer pos_msec pixels].
  now rewrite int_1000, int_2000, cosine_similarity_unit.
Qed.

Lemma similarities_dark_clip :
  calculate_similarities_parallel Examples.pixels_as_features Examples.dark_clip =
  [(1%Z, 0)].
Proof.
  rewrite calculate_similarities_sequencer, sampled_dark_clip.
  unfold entry_of, timestamp_of, Examples.pixels_as_features.
  cbn [map sequencer pos_msec pixels].
  rewrite int_1000, cosine_similarity_zero_norm; [reflexivity |].
  right. apply norm_zero_vector.
Qed.

Lemma similarities_short_clip :
  calculate_similarities_parallel Examples.pixels_as_features Examples.short_clip = [].
Proof.
  rewrite calculate_similarities_sequencer, sampled_short_clip. reflexivity.
Qed.

Lemma disk_clip (cap : VideoCapture Np.ndarray) :
  Examples.disk cap "clip.mp4" = Some cap.
Proof. reflexivity. Qed.

Lemma flat_constant : Forall (fun p : Z * R => snd p = 1) Examples.flat.
Proof. repeat constructor. Qed.

Lemma flat_nonempty : Examples.flat <> [].
Proof. discriminate. Qed.

Lemma scenario_threshold : 0.10 <= threshold_of Examples.scenario 1 <= 0.725.
Proof.
  unfold threshold_of, Examples.scenario. cbn [map snd].
  assert (Hm : Np.mean [0.95; 0.10; 0.92; 0.93] = 0.725).
  { unfold Np.mean, Np.sum. cbn [fold_left length]. simpl INR. lra. }
  unfold Np.std. rewrite Hm.
  set (v := Np.mean (map _ _)).
  assert (Hv : v = 0.130325).
  { subst v. unfold Np.mean, Np.sum. cbn [map fold_left length]. simpl INR. lra. }
  rewrite Hv.
  assert (sqrt 0.130325 <= 0.625).
  { rewrite <- (sqrt_square 0.625) by lra. apply sqrt_le_1_alt. lra. }
  pose proof (sqrt_pos 0.130325). lra.
Qed.

Lemma scenario_percentile :
  Np.percentile (map snd Examples.scenario) (Py.round (1 / 60 * 100 * 0)) = Ok 0.10.
Proof.
  rewrite rank_0, percentile_0. f_equal.
  unfold Examples.scenario, Np.sort. cbn [map snd fold_right Np.insert].
  repeat match goal with
  | |- context [Rle_dec ?a ?b] =>
      destruct (Rle_dec a b); [try (exfalso; lra) | try (exfalso; lra)];
      cbn [Np.insert]
  end.
  reflexivity.
Qed.

(** *** The rank in binary64 *)

Lemma finite_number_IZR (z : Z) :
  (- Binary64.max_value <= z <= Binary64.max_value)%Z -> finite_number (IZR z).
Proof.
  intros [Hlo Hhi]. unfold finite_number. rewrite <- opp_IZR.
  split; apply IZR_le; assumption.
Qed.

Lemma small_int_finite (z : Z) : (Z.abs z <=? 1000)%Z = true -> finite_number (IZR z).
Proof.
  intros H. apply Z.leb_le in H. apply finite_number_IZR.
  assert (Hmax : (1000 <= Binary64.max_value)%Z) by (vm_compute; discriminate).
  lia.
Qed.

Lemma segment_similarities_binary64_rank (sims : list (Z * R)) (alpha : R)
    (frame_per_minute : number) :
  sims <> [] ->
  segment_similarities_binary64 sims alpha frame_per_minute =
  rank <- percentile_rank_binary64 frame_per_minute ;;
  percentile <- Np.percentile (map snd sims) rank ;;
  Ok (selection_loop (threshold_of sims alpha) percentile sims []).
Proof.
  intros H. destruct sims as [| p sims]; [contradiction |]. reflexivity.
Qed.

Lemma segment_similarities_binary64_empty (alpha : R)
    (frame_per_minute : number) :
  segment_similarities_binary64 [] alpha frame_per_minute =
  Raise (AssertionError "similarities is empty").
Proof. reflexivity. Qed.

(** The real number whose exact rank is [q]. *)
Lemma rank_of_real (q : Z) : Py.round (1 / 60 * 100 * (3 / 5 * IZR q)) = q.
Proof.
  replace (1 / 60 * 100 * (3 / 5 * IZR q)) with (IZR q) by lra. apply round_IZR.
Qed.

(** When the binary64 rank is [q], the call behaves as the real-valued
    model does at a [frame_per_minute] of exact rank [q]. *)
Lemma segment_similarities_binary64_at_rank (sims : list (Z * R)) (alpha : R)
    (frame_per_minute : number) (q : Z) :
  percentile_rank_binary64 frame_per_minute = Ok q ->
  segment_similarities_binary64 sims alpha frame_per_minute =
  segment_similarities sims alpha (3 / 5 * IZR q).
Proof.
  intros Hq. destruct sims as [| p sims]; [reflexivity |].
  rewrite segment_similarities_binary64_rank, segment_similarities_percentile
    by discriminate.
  now rewrite Hq, rank_of_real.
Qed.

Lemma detect_scene_changes_binary64_segment {image : Type}
    (extract_features : image -> Np.ndarray)
    (fs : string -> option (VideoCapture image)) (video_path : string)
    (cap : VideoCapture image) (alpha : R) (frame_per_minute : number) :
  fs video_path = Some cap ->
  detect_scene_changes_binary64 extract_features fs video_path alpha frame_per_minute =
  segment_similarities_binary64 (calculate_similarities_parallel extract_features cap)
    alpha frame_per_minute.
Proof. intros H. unfold detect_scene_changes_binary64. now rewrite H. Qed.

Lemma rank_binary64_0 : percentile_rank_binary64 (PyInt 0) = Ok 0%Z.
Proof. reflexivity. Qed.

Lemma rank_binary64_60 : percentile_rank_binary64 (PyInt 60) = Ok 100%Z.
Proof. vm_compute. reflexivity. Qed.

Lemma rank_binary64_44_7 :
  percentile_rank_binary64 (PyFloat (Binary64.literal 447 10)) = Ok 75%Z.
Proof. vm_compute. reflexivity. Qed.


(** *** The five rising scores, evaluated *)






(** ** The properties of the specification *)




(** C2. On the sequence [(1,0.95),(2,0.10),(3,0.92),(4,0.93)] with
    [alpha = 1] and [frame_per_minute = 0] the segmenter returns exactly
    [2]: timestamp 2 is the only pair at or below the threshold
    [mean - 1 * std] or at or below the 0th percentile, which is the minimum
    0.10. *)
Theorem scenario_selects_2 :
  segment_similarities Examples.scenario 1 0 = Ok [2%Z]
  /\ Np.percentile (map snd Examples.scenario) (Py.round (1 / 60 * 100 * 0)) = Ok 0.10
  /\ filter (fun p => Py.Rleb (snd p) (threshold_of Examples.scenario 1)
                      || Py.Rleb (snd p) 0.10) Examples.scenario = [(2%Z, 0.10)].
Proof.
  pose proof scenario_threshold as [Hlo Hhi].
  assert (F1 : Py.Rleb 0.95 (threshold_of Examples.scenario 1) = false)
    by (apply Rleb_false; lra).
  assert (F2 : Py.Rleb 0.92 (threshold_of Examples.scenario 1) = false)
    by (apply Rleb_false; lra).
  assert (F3 : Py.Rleb 0.93 (threshold_of Examples.scenario 1) = false)
    by (apply Rleb_false; lra).
  assert (T : Py.Rleb 0.10 (threshold_of Examples.scenario 1) = true)
    by (apply Rleb_true; lra).
  assert (P1 : Py.Rleb 0.95 0.10 = false) by (apply Rleb_false; lra).
  assert (P2 : Py.Rleb 0.92 0.10 = false) by (apply Rleb_false; lra).
  assert (P3 : Py.Rleb 0.93 0.10 = false) by (apply Rleb_false; lra).
  split; [| split].
  - rewrite (segment_similarities_run _ 1 0 0.10);
      [| discriminate | exact scenario_percentile].
    set (t := threshold_of Examples.scenario 1) in *.
    unfold Examples.scenario. cbn [selection_loop].
    rewrite F1, T, F2, F3, P1, P2, P3. reflexivity.
  - exact scenario_percentile.
  - set (t := threshold_of Examples.scenario 1) in *.
    unfold Examples.scenario. cbn [filter snd].
    rewrite F1, T, F2, F3, P1, P2, P3. reflexivity.
Qed.

(** *** Zero-norm embeddings *)

(** C3, as stated, fails: a clip whose first sampled frame has the zero
    vector as its embedding still gets a numeric similarity, 0, for the pair
    it forms with the next sampled frame. *)
Lemma zero_norm_similarity_emitted :
  Torch.norm (Examples.pixels_as_features [0]) = 0
  /\ calculate_similarities_parallel Examples.pixels_as_features Examples.dark_clip =
     [(1%Z, 0)].
Proof.
  split.
  - apply norm_zero_vector.
  - apply similarities_dark_clip.
Qed.

(** C3, amended.  Nothing is raised for a zero-norm embedding:
    [cosine_similarity] bounds each norm below by [eps], so whenever one of
    two consecutively sampled frames has a zero-norm embedding, the pair is
    emitted with the similarity 0. *)
Theorem zero_norm_similarity_is_zero {image : Type}
    (extract_features : image -> Np.ndarray) (cap : VideoCapture image)
    (i : nat) (prev cur : frame image) :
  nth_error (sampled_frames cap) i = Some prev ->
  nth_error (sampled_frames cap) (S i) = Some cur ->
  Torch.norm (extract_features (pixels prev)) = 0
  \/ Torch.norm (extract_features (pixels cur)) = 0 ->
  nth_error (calculate_similarities_parallel extract_features cap) i =
  Some (Py.int (timestamp_of cur), 0).
Proof.
  intros Hp Hc Hz.
  rewrite calculate_similarities_sequencer.
  apply (map_nth_error (entry_of extract_features)) in Hp, Hc.
  rewrite (sequencer_None_nth _ _ _ _ Hp Hc).
  unfold entry_of. simpl.
  rewrite cosine_similarity_zero_norm; [reflexivity | tauto].
Qed.

Lemma zero_norm_similarity_is_zero_witness :
  nth_error
    (calculate_similarities_parallel Examples.pixels_as_features Examples.dark_clip) 0 =
  Some (Py.int (timestamp_of (Frame 1000 [1])), 0).
Proof.
  apply (zero_norm_similarity_is_zero Examples.pixels_as_features Examples.dark_clip
           0 (Frame 0 [0]) (Frame 1000 [1])).
  - rewrite sampled_dark_clip. reflexivity.
  - rewrite sampled_dark_clip. reflexivity.
  - left. apply norm_zero_vector.
Defined.

(** *** Percentile ranks outside [0, 100] *)




(** *** Empty similarity sequences *)

Lemma sequencer_short (items : list (Z * Np.ndarray)) :
  (length items <= 1)%nat -> sequencer None items = [].
Proof.
  destruct items as [| [k f] [| y items]]; simpl; intros H; try reflexivity; lia.
Qed.

(** C5. When at most one frame is sampled the similarity sequence is empty,
    and [detect_scene_changes] fails the assertion
    [similarities is empty]; it does not return an empty list. *)
Theorem empty_similarities_rejected {image : Type}
    (extract_features : image -> Np.ndarray)
    (fs : string -> option (VideoCapture image)) (video_path : string)
    (cap : VideoCapture image) (alpha frame_per_minute : R) :
  fs video_path = Some cap ->
  (length (sampled_frames cap) <= 1)%nat ->
  calculate_similarities_parallel extract_features cap = []
  /\ detect_scene_changes extract_features fs video_path alpha frame_per_minute =
     Raise (AssertionError "similarities is empty")
  /\ detect_scene_changes extract_features fs video_path alpha frame_per_minute <> Ok [].
Proof.
  intros Hfs Hlen.
  assert (Hcalc : calculate_similarities_parallel extract_features cap = []).
  { rewrite calculate_similarities_sequencer. apply sequencer_short.
    now rewrite length_map. }
  rewrite (detect_scene_changes_segment extract_features fs video_path cap) by exact Hfs.
  rewrite Hcalc, segment_similarities_empty.
  repeat split. discriminate.
Qed.

Lemma empty_similarities_rejected_witness :
  calculate_similarities_parallel Examples.pixels_as_features Examples.short_clip = []
  /\ detect_scene_changes Examples.pixels_as_features
       (Examples.disk Examples.short_clip) "clip.mp4" 0 0 =
     Raise (AssertionError "similarities is empty")
  /\ detect_scene_changes Examples.pixels_as_features
       (Examples.disk Examples.short_clip) "clip.mp4" 0 0 <> Ok [].
Proof.
  apply (empty_similarities_rejected Examples.pixels_as_features
           (Examples.disk Examples.short_clip) "clip.mp4" Examples.short_clip 0 0).
  - reflexivity.
  - rewrite sampled_short_clip. simpl. lia.
Defined.

(** *** Sampling spacing *)

Lemma StronglySorted_nth_error {A : Type} (rel : A -> A -> Prop) (l : list A)
    (i j : nat) (a b : A) :
  StronglySorted rel l -> (i < j)%nat ->
  nth_error l i = Some a -> nth_error l j = Some b -> rel a b.
Proof.
  intros Hs. revert i j. induction Hs as [| x l Hs IH Hall]; intros i j Hij Ha Hb.
  - destruct i; discriminate.
  - destruct j as [| j]; [lia |]. simpl in Hb.
    destruct i as [| i]; simpl in Ha.
    + inversion Ha; subst. rewrite Forall_forall in Hall.
      apply Hall. eapply nth_error_In; eassumption.
    + apply (IH i j); [lia | assumption | assumption].
Qed.



(** *** Sequence alignment *)

Lemma sequencer_Some_length (items : list (Z * Np.ndarray)) (last : Np.ndarray) :
  length (sequencer (Some last) items) = length items.
Proof.
  rewrite <- (length_map fst), sequencer_Some_keys. apply length_map.
Qed.

Lemma tl_map {A B : Type} (f : A -> B) (l : list A) : tl (map f l) = map f (tl l).
Proof. destruct l; reflexivity. Qed.

Lemma similarity_keys {image : Type} (extract_features : image -> Np.ndarray)
    (cap : VideoCapture image) :
  map fst (calculate_similarities_parallel extract_features cap) =
  map Py.int (tl (sampled_timestamps cap)).
Proof.
  rewrite calculate_similarities_sequencer, sequencer_None_keys.
  unfold sampled_timestamps. rewrite !tl_map, !map_map. reflexivity.
Qed.

(** C7. For [N] sampled frames the similarity sequence has [N - 1] entries
    (none for [N = 0] and for [N = 1]): the first sampled frame gets no
    entry and every later sampled frame gets one, carrying that frame's
    truncated timestamp. *)
Theorem similarity_sequence_length {image : Type}
    (extract_features : image -> Np.ndarray) (cap : VideoCapture image) :
  length (calculate_similarities_parallel extract_features cap) =
  (length (sampled_frames cap) - 1)%nat
  /\ map fst (calculate_similarities_parallel extract_features cap) =
     map (fun fr => Py.int (timestamp_of fr)) (tl (sampled_frames cap)).
Proof.
  split.
  - rewrite <- (length_map fst), similarity_keys, length_map.
    unfold sampled_timestamps. rewrite tl_map, length_map.
    destruct (sampled_frames cap); simpl; lia.
  - rewrite similarity_keys. unfold sampled_timestamps.
    rewrite tl_map, map_map. reflexivity.
Qed.

(** *** Truncated, increasing timestamps *)

Lemma StronglySorted_tl {A : Type} (rel : A -> A -> Prop) (l : list A) :
  StronglySorted rel l -> StronglySorted rel (tl l).
Proof. intros H. destruct l; [constructor | now apply StronglySorted_inv in H]. Qed.

Lemma similarity_keys_increasing {image : Type}
    (extract_features : image -> Np.ndarray) (cap : VideoCapture image) :
  StronglySorted Z.lt (map fst (calculate_similarities_parallel extract_features cap)).
Proof.
  rewrite similarity_keys, <- tl_map.
  apply StronglySorted_tl, sampled_keys_increasing.
Qed.

Lemma StronglySorted_filter_keys {A : Type} (f : A -> bool) (l : list (Z * A)) :
  StronglySorted Z.lt (map fst l) ->
  StronglySorted Z.lt (map fst (filter (fun p => f (snd p)) l)).
Proof.
  induction l as [| [k s] l IH]; simpl; intros H; [constructor |].
  apply StronglySorted_inv in H. destruct H as [Hs Hall].
  destruct (f s); simpl; [| now apply IH].
  constructor; [now apply IH |].
  rewrite Forall_forall in *. intros k' Hk'. apply Hall.
  rewrite in_map_iff in *. destruct Hk' as [p [Hp Hin]].
  exists p. split; [exact Hp |]. apply filter_In in Hin. tauto.
Qed.

Lemma selection_loop_keys (threshold percentile : R) (sims : list (Z * R)) :
  selection_loop threshold percentile sims [] =
  map fst (filter (fun p => Py.Rleb (snd p) threshold
                            || negb (Py.Rleb (snd p) threshold)
                               && Py.Rleb (snd p) percentile) sims).
Proof. rewrite selection_loop_filter. reflexivity. Qed.

Lemma segment_similarities_Ok (sims : list (Z * R)) (alpha frame_per_minute : R)
    (out : list Z) :
  segment_similarities sims alpha frame_per_minute = Ok out ->
  exists percentile,
    out = selection_loop (threshold_of sims alpha) percentile sims [].
Proof.
  destruct sims as [| p sims]; [discriminate |].
  rewrite segment_similarities_percentile by discriminate.
  destruct (Np.percentile _ _) as [pct | e]; simpl; [| discriminate].
  intros H. inversion H. now exists pct.
Qed.

(** Truncation toward zero: the integer lies between 0 and the float, less
    than one away from it. *)
Lemma int_truncates (x : R) :
  (0 <= x -> IZR (Py.int x) <= x < IZR (Py.int x) + 1)
  /\ (x <= 0 -> x <= IZR (Py.int x) < x + 1).
Proof.
  split; intros H.
  - rewrite int_nonneg by assumption. apply Int_part_bounds.
  - unfold Py.int. destruct (Rle_dec 0 x) as [H0 | H0].
    + replace x with (IZR 0) by lra. rewrite Int_part_IZR. lra.
    + pose proof (Int_part_bounds (- x)) as B.
      rewrite opp_IZR. lra.
Qed.

(** [int] truncates where [round] goes to the nearest integer. *)
Lemma int_is_not_round : Py.int (3 / 2) = 1%Z /\ Py.round (3 / 2) = 2%Z.
Proof.
  assert (H : Int_part (3 / 2) = 1%Z) by (apply Int_part_eq; lra).
  split.
  - apply int_eq; lra.
  - unfold Py.round. rewrite H.
    destruct (Rlt_dec (3 / 2 - 1) (1 / 2)); [exfalso; lra |].
    destruct (Rlt_dec (1 / 2) (3 / 2 - 1)); [exfalso; lra |].
    reflexivity.
Qed.

(** C8. The timestamp of every emitted pair is the truncation toward zero of
    the timestamp of the sampled frame it belongs to (the integer [k] with
    [k <= t < k + 1], the sampled timestamps being non-negative), the
    emitted sequence increases strictly by timestamp, and so does every
    scene-change list, whose timestamps are among the emitted ones. *)
Theorem similarity_timestamps_truncated {image : Type}
    (extract_features : image -> Np.ndarray) (cap : VideoCapture image) :
  map fst (calculate_similarities_parallel extract_features cap) =
  map Py.int (tl (sampled_timestamps cap))
  /\ Forall (fun t => 0 <= t /\ IZR (Py.int t) <= t < IZR (Py.int t) + 1)
       (sampled_timestamps cap)
  /\ StronglySorted Z.lt (map fst (calculate_similarities_parallel extract_features cap))
  /\ forall (fs : string -> option (VideoCapture image)) (video_path : string)
       (alpha frame_per_minute : R) (scene_changes : list Z),
       fs video_path = Some cap ->
       detect_scene_changes extract_features fs video_path alpha frame_per_minute =
       Ok scene_changes ->
       StronglySorted Z.lt scene_changes
       /\ incl scene_changes (map Py.int (tl (sampled_timestamps cap))).
Proof.
  split; [apply similarity_keys |].
  split.
  { eapply Forall_impl; [| apply sampled_timestamps_nonneg].
    intros t Ht. split; [exact Ht |]. now apply int_truncates. }
  split; [apply similarity_keys_increasing |].
  intros fs video_path alpha frame_per_minute out Hfs Hout.
  rewrite (detect_scene_changes_segment extract_features fs video_path cap) in Hout
    by exact Hfs.
  apply segment_similarities_Ok in Hout. destruct Hout as [pct Hout].
  rewrite selection_loop_keys in Hout. subst out. split.
  - apply (StronglySorted_filter_keys
             (fun s => Py.Rleb s (threshold_of
                         (calculate_similarities_parallel extract_features cap) alpha)
                       || negb (Py.Rleb s (threshold_of
                                  (calculate_similarities_parallel extract_features cap)
                                  alpha))
                          && Py.Rleb s pct)).
    apply similarity_keys_increasing.
  - rewrite <- (similarity_keys extract_features). intros k Hk.
    rewrite in_map_iff in *. destruct Hk as [p [Hp Hin]].
    exists p. split; [exact Hp |]. apply filter_In in Hin. tauto.
Qed.

Lemma detect_still_clip :
  detect_scene_changes Examples.pixels_as_features
    (Examples.disk Examples.still_clip) "clip.mp4" 0 0 = Ok [1%Z; 2%Z].
Proof.
  rewrite (detect_scene_changes_segment _ _ _ Examples.still_clip) by apply disk_clip.
  rewrite similarities_still_clip.
  apply (segment_similarities_constant Examples.flat 1 flat_nonempty flat_constant).
Qed.

Lemma similarity_timestamps_truncated_witness :
  StronglySorted Z.lt [1%Z; 2%Z]
  /\ incl [1%Z; 2%Z] (map Py.int (tl (sampled_timestamps Examples.still_clip))).
Proof.
  destruct (similarity_timestamps_truncated Examples.pixels_as_features
              Examples.still_clip) as [_ [_ [_ H]]].
  apply (H (Examples.disk Examples.still_clip) "clip.mp4" 0 0 [1%Z; 2%Z]).
  - reflexivity.
  - apply detect_still_clip.
Defined.

(** *** Constant similarity sequences *)

(** C9, as stated, fails: on two equal scores with [alpha = 0] the threshold
    is that score, and the mean-threshold branch selects both timestamps,
    not none. *)
Lemma constant_scores_mean_branch_fires :
  mean_triggered Examples.flat 0 = [1%Z; 2%Z]
  /\ mean_triggered Examples.flat 0 <> [].
Proof.
  rewrite (mean_triggered_constant Examples.flat 1 flat_nonempty flat_constant).
  split; [reflexivity | discriminate].
Qed.

(** In binary64 both alternatives of the mean-threshold test occur on
    constant scores: the mean of two scores 1.0 is 1.0, the mean of three
    scores 0.7 is below 0.7. *)
Lemma binary64_mean_of_constant_scores :
  Binary64.mean [Binary64.of_Z 1; Binary64.of_Z 1] = Binary64.of_Z 1
  /\ Binary64.ltb
       (Binary64.mean [Binary64.literal 7 10; Binary64.literal 7 10;
                       Binary64.literal 7 10])
       (Binary64.literal 7 10) = true.
Proof. split; vm_compute; reflexivity. Qed.

(** C9, amended.  When every similarity score is the same value [s],
    [alpha = 0] and [frame_per_minute = 0]: the rank is 0 and the percentile
    of the constant distribution is [s], so
    [similarity <= percentile_value] holds for every pair and every
    timestamp is returned, once; the mean-threshold test, whatever
    threshold the mean and the standard deviation give, selects either
    every timestamp or none. *)
Theorem constant_scores_all_returned (similarities : list (Z * R)) (s : R) :
  similarities <> [] ->
  Forall (fun p => snd p = s) similarities ->
  percentile_rank_binary64 (PyInt 0) = Ok 0%Z
  /\ Np.percentile (map snd similarities) 0 = Ok s
  /\ Forall (fun p => snd p <= s) similarities
  /\ (forall threshold,
        (filter (mean_branch threshold) similarities = similarities
         \/ filter (mean_branch threshold) similarities = [])
        /\ selection_loop threshold s similarities [] = map fst similarities)
  /\ segment_similarities_binary64 similarities 0 (PyInt 0) =
     Ok (map fst similarities).
Proof.
  intros Hne Hall.
  assert (Hpct : Np.percentile (map snd similarities) 0 = Ok s).
  { apply percentile_constant.
    - destruct similarities; [contradiction | discriminate].
    - now apply Forall_map.
    - lia. }
  assert (Hle : Forall (fun p => snd p <= s) similarities).
  { eapply Forall_impl; [| exact Hall]. intros p Hp. simpl in Hp. lra. }
  split; [exact rank_binary64_0 |].
  split; [exact Hpct |].
  split; [exact Hle |].
  split.
  - intros threshold. split; [| now apply selection_all_below_cutoff].
    destruct (Py.Rleb s threshold) eqn:E.
    + left. apply filter_all. eapply Forall_impl; [| exact Hall].
      intros p Hp. unfold mean_branch. simpl in Hp. now rewrite Hp.
    + right. apply filter_none. eapply Forall_impl; [| exact Hall].
      intros p Hp. unfold mean_branch. simpl in Hp. now rewrite Hp.
  - rewrite segment_similarities_binary64_rank by exact Hne.
    rewrite rank_binary64_0. cbn [bind]. rewrite Hpct. cbn [bind].
    f_equal. now apply selection_all_below_cutoff.
Qed.

Lemma constant_scores_all_returned_witness :
  percentile_rank_binary64 (PyInt 0) = Ok 0%Z
  /\ Np.percentile (map snd Examples.flat) 0 = Ok 1
  /\ Forall (fun p => snd p <= 1) Examples.flat
  /\ (forall threshold,
        (filter (mean_branch threshold) Examples.flat = Examples.flat
         \/ filter (mean_branch threshold) Examples.flat = [])
        /\ selection_loop threshold 1 Examples.flat [] = map fst Examples.flat)
  /\ segment_similarities_binary64 Examples.flat 0 (PyInt 0) =
     Ok (map fst Examples.flat).
Proof.
  apply (constant_scores_all_returned Examples.flat 1).
  - discriminate.
  - repeat constructor.
Defined.

(** *** Threshold monotonicity *)

Lemma mean_triggered_in_output (sims : list (Z * R)) (alpha frame_per_minute : R)
    (out : list Z) :
  segment_similarities sims alpha frame_per_minute = Ok out ->
  incl (mean_triggered sims alpha) out.
Proof.
  intros H. apply segment_similarities_Ok in H. destruct H as [pct H].
  rewrite selection_loop_filter in H. simpl in H. subst out.
  unfold mean_triggered. intros k Hk.
  rewrite in_map_iff in *. destruct Hk as [p [Hp Hin]].
  exists p. split; [exact Hp |].
  apply filter_In in Hin. apply filter_In. destruct Hin as [Hin Hb].
  split; [exact Hin |]. now rewrite Hb.
Qed.

(** C10. The threshold does not increase with [alpha]: for
    [alpha1 <= alpha2] the threshold at [alpha2] is at most the threshold at
    [alpha1], the standard deviation being non-negative, and every
    timestamp the mean-threshold test selects at [alpha2] it selects at
    [alpha1].  (Neither [0 <= alpha1] nor a non-empty sequence is needed.) *)
Theorem threshold_monotone_in_alpha (similarities : list (Z * R)) (alpha1 alpha2 : R) :
  alpha1 <= alpha2 ->
  threshold_of similarities alpha2 <= threshold_of similarities alpha1
  /\ incl (mean_triggered similarities alpha2) (mean_triggered similarities alpha1).
Proof.
  intros Ha.
  assert (Hthr : threshold_of similarities alpha2 <= threshold_of similarities alpha1).
  { unfold threshold_of. pose proof (std_nonneg (map snd similarities)). nra. }
  split; [exact Hthr |].
  unfold mean_triggered. intros k Hk.
  rewrite in_map_iff in *. destruct Hk as [p [Hp Hin]].
  exists p. split; [exact Hp |].
  apply filter_In in Hin. apply filter_In. destruct Hin as [Hin Hb].
  split; [exact Hin |].
  unfold mean_branch in *. apply Rleb_true in Hb. apply Rleb_true. lra.
Qed.

Lemma threshold_monotone_in_alpha_witness :
  threshold_of Examples.scenario 2 <= threshold_of Examples.scenario 1
  /\ incl (mean_triggered Examples.scenario 2) (mean_triggered Examples.scenario 1).
Proof.
  apply (threshold_monotone_in_alpha Examples.scenario 1 2). lra.
Defined.

(** * Further properties of the code *)

(** ** The sampling loop *)

Section SamplingMore.

Context {image : Type}.
Variable extract_features : image -> Np.ndarray.

Lemma frame_sampler_idempotent (cap : VideoCapture image) (t0 : R) :
  frame_sampler (frame_sampler cap t0) t0 = frame_sampler cap t0.
Proof.
  revert t0. induction cap as [| fr cap IH]; intros t0; cbn [frame_sampler].
  - reflexivity.
  - destruct (Py.Rgeb (timestamp_of fr - t0) 1) eqn:E.
    + cbn [frame_sampler]. rewrite E. now rewrite IH.
    + apply IH.
Qed.

(** X1. The frames the debounce drops have no influence on the result: running
    the function on the sampled frames alone gives the same similarity
    sequence. *)
Theorem similarities_depend_on_sampled_frames (cap : VideoCapture image) :
  sampled_frames (sampled_frames cap) = sampled_frames cap
  /\ calculate_similarities_parallel extract_features (sampled_frames cap) =
     calculate_similarities_parallel extract_features cap.
Proof.
  assert (H : sampled_frames (sampled_frames cap) = sampled_frames cap)
    by apply frame_sampler_idempotent.
  split; [exact H |].
  rewrite !calculate_similarities_sequencer. now rewrite H.
Qed.

Lemma frame_sampler_app (cap cap' : VideoCapture image) (t0 : R) :
  frame_sampler (cap ++ cap') t0 =
  frame_sampler cap t0
  ++ frame_sampler cap' (List.last (map timestamp_of (frame_sampler cap t0)) t0).
Proof.
  revert t0. induction cap as [| fr cap IH]; intros t0; cbn [frame_sampler app].
  - reflexivity.
  - destruct (Py.Rgeb (timestamp_of fr - t0) 1).
    + rewrite IH. cbn [map]. rewrite last_cons. reflexivity.
    + apply IH.
Qed.

Lemma sequencer_app (items items' : list (Z * Np.ndarray)) (o : option Np.ndarray) :
  sequencer o (items ++ items') =
  sequencer o items
  ++ sequencer (List.last (map (fun x => Some (snd x)) items) o) items'.
Proof.
  revert o. induction items as [| [k f] items IH]; intros o; cbn [sequencer app map].
  - reflexivity.
  - rewrite last_cons. destruct o as [l |]; rewrite IH; reflexivity.
Qed.

(** X2. Reading more frames only appends similarity pairs: the sequence of a
    video is a prefix of the sequence of any video that continues it. *)
Theorem similarities_of_longer_video (cap cap' : VideoCapture image) :
  exists more,
    calculate_similarities_parallel extract_features (cap ++ cap') =
    calculate_similarities_parallel extract_features cap ++ more.
Proof.
  rewrite !calculate_similarities_sequencer.
  unfold sampled_frames. rewrite frame_sampler_app, map_app, sequencer_app.
  eexists. reflexivity.
Qed.

(** X3. Each similarity compares a sampled frame with the sampled frame just
    before it, and carries the truncated timestamp of the later one. *)
Theorem similarity_of_consecutive_samples (cap : VideoCapture image)
    (i : nat) (prev cur : frame image) :
  nth_error (sampled_frames cap) i = Some prev ->
  nth_error (sampled_frames cap) (S i) = Some cur ->
  nth_error (calculate_similarities_parallel extract_features cap) i =
  Some (Py.int (timestamp_of cur),
        Torch.cosine_similarity (extract_features (pixels cur))
                                (extract_features (pixels prev))).
Proof.
  intros Hp Hc.
  rewrite calculate_similarities_sequencer.
  apply (map_nth_error (entry_of extract_features)) in Hp, Hc.
  now rewrite (sequencer_None_nth _ _ _ _ Hp Hc).
Qed.

(** The [i]-th sampled frame is at least [i] seconds into the video. *)
Lemma frame_sampler_nth_lower (cap : VideoCapture image) (t0 : R) (i : nat) (t : R) :
  nth_error (map timestamp_of (frame_sampler cap t0)) i = Some t ->
  t0 + 1 + INR i <= t.
Proof.
  revert t0 i. induction cap as [| fr cap IH]; intros t0 i H; cbn [frame_sampler] in H.
  - destruct i; discriminate.
  - destruct (Py.Rgeb (timestamp_of fr - t0) 1) eqn:E.
    + apply Rgeb_true in E. destruct i as [| i]; cbn [map nth_error] in H.
      * inversion H; subst. simpl. lra.
      * apply IH in H. rewrite S_INR. lra.
    + now apply IH.
Qed.

(** X4. The [i]-th similarity pair carries a timestamp of at least [i + 1]
    seconds; in particular no scene change is ever reported at second 0. *)
Theorem similarity_timestamp_lower_bound (cap : VideoCapture image)
    (i : nat) (k : Z) (s : R) :
  nth_error (calculate_similarities_parallel extract_features cap) i = Some (k, s) ->
  (Z.of_nat i + 1 <= k)%Z.
Proof.
  intros H. apply (map_nth_error fst) in H. rewrite similarity_keys in H. simpl in H.
  rewrite nth_error_map in H.
  destruct (nth_error (tl (sampled_timestamps cap)) i) as [t |] eqn:Ht; [| discriminate].
  inversion H; subst k. clear H.
  assert (Hs : nth_error (sampled_timestamps cap) (S i) = Some t).
  { destruct (sampled_timestamps cap); [destruct i; discriminate | exact Ht]. }
  apply frame_sampler_nth_lower in Hs. rewrite S_INR in Hs.
  assert (H0 : 0 <= t) by (pose proof (pos_INR i); lra).
  rewrite int_nonneg by exact H0.
  pose proof (Int_part_bounds t) as B.
  apply Z.lt_succ_r. apply lt_IZR. rewrite succ_IZR, plus_IZR, <- INR_IZR_INZ. lra.
Qed.

End SamplingMore.

Section SamplingCoverage.

Context {image : Type}.
Variable extract_features : image -> Np.ndarray.

Lemma frame_sampler_In (cap : VideoCapture image) (t0 : R) (fr : frame image) :
  In fr (frame_sampler cap t0) -> In fr cap.
Proof.
  revert t0. induction cap as [| x cap IH]; intros t0 H; cbn [frame_sampler] in H.
  - contradiction.
  - destruct (Py.Rgeb (timestamp_of x - t0) 1).
    + destruct H as [H | H]; [now left | right; now apply (IH _ H)].
    + right. now apply (IH _ H).
Qed.



(** X7. A video whose timestamps do not exceed [T] seconds yields at most [T]
    similarity pairs. *)
Theorem similarity_count_bounded_by_duration (cap : VideoCapture image) (T : R) :
  Forall (fun fr => timestamp_of fr <= T) cap ->
  INR (length (calculate_similarities_parallel extract_features cap)) <= Rmax 0 T.
Proof.
  intros HT.
  destruct (calculate_similarities_parallel extract_features cap) as [| p l] eqn:E.
  - simpl. apply Rmax_l.
  - assert (Hlen : length (p :: l)
                   = (length (sampled_timestamps cap) - 1)%nat).
    { rewrite <- E, <- (length_map fst), similarity_keys, length_map.
      destruct (sampled_timestamps cap); simpl; lia. }
    rewrite Hlen.
    set (n := length (sampled_timestamps cap)) in *.
    assert (Hn : (2 <= n)%nat) by (simpl in Hlen; lia).
    destruct (nth_error (sampled_timestamps cap) (n - 1)) as [t |] eqn:Ht.
    + pose proof (frame_sampler_nth_lower cap (-1) (n - 1) t Ht) as Hlow.
      assert (Hin : In t (sampled_timestamps cap)) by (eapply nth_error_In; eassumption).
      unfold sampled_timestamps in Hin. apply in_map_iff in Hin.
      destruct Hin as [fr [Hfr Hin]]. apply frame_sampler_In in Hin.
      rewrite Forall_forall in HT. specialize (HT fr Hin). rewrite Hfr in HT.
      eapply Rle_trans; [| apply Rmax_r]. lra.
    + apply nth_error_None in Ht. fold n in Ht. lia.
Qed.

End SamplingCoverage.

(** ** Constant scores and still videos *)

Lemma segment_similarities_binary64_constant (sims : list (Z * R)) (s alpha : R)
    (frame_per_minute : number) (rank : Z) :
  sims <> [] ->
  Forall (fun p => snd p = s) sims ->
  percentile_rank_binary64 frame_per_minute = Ok rank ->
  (0 <= rank <= 100)%Z ->
  segment_similarities_binary64 sims alpha frame_per_minute = Ok (map fst sims).
Proof.
  intros Hne Hall Hq Hrank.
  rewrite segment_similarities_binary64_rank by exact Hne.
  rewrite Hq. cbn [bind].
  rewrite (percentile_constant (map snd sims) s rank).
  - cbn [bind]. f_equal. apply selection_all_below_cutoff.
    eapply Forall_impl; [| exact Hall]. intros p Hp. simpl in Hp. lra.
  - destruct sims; [contradiction | discriminate].
  - now apply Forall_map.
  - exact Hrank.
Qed.

(** X10. On a non-empty constant similarity sequence every percentile is
    the constant, so the second test of the loop holds for every pair the
    first one leaves: whatever threshold the mean and the standard
    deviation give, every timestamp is selected, and the segmenter returns
    all of them for every [alpha] in the range of binary64 and every
    [frame_per_minute] whose rank lies in [0, 100]. *)
Theorem constant_scores_selected_for_any_parameters (sims : list (Z * R))
    (s alpha : R) (frame_per_minute : number) (rank : Z) :
  finite_number alpha ->
  sims <> [] ->
  Forall (fun p => snd p = s) sims ->
  percentile_rank_binary64 frame_per_minute = Ok rank ->
  (0 <= rank <= 100)%Z ->
  Np.percentile (map snd sims) rank = Ok s
  /\ (forall threshold, selection_loop threshold s sims [] = map fst sims)
  /\ segment_similarities_binary64 sims alpha frame_per_minute = Ok (map fst sims).
Proof.
  intros _ Hne Hall Hq Hrank.
  split.
  { apply percentile_constant.
    - destruct sims; [contradiction | discriminate].
    - now apply Forall_map.
    - exact Hrank. }
  split.
  - intros threshold. apply selection_all_below_cutoff.
    eapply Forall_impl; [| exact Hall]. intros p Hp. simpl in Hp. lra.
  - now apply (segment_similarities_binary64_constant sims s alpha frame_per_minute rank).
Qed.

Lemma constant_scores_selected_for_any_parameters_witness :
  Np.percentile (map snd Examples.flat) 75 = Ok 1
  /\ (forall threshold,
        selection_loop threshold 1 Examples.flat [] = map fst Examples.flat)
  /\ segment_similarities_binary64 Examples.flat 3 (PyFloat (Binary64.literal 447 10)) =
     Ok (map fst Examples.flat).
Proof.
  apply (constant_scores_selected_for_any_parameters Examples.flat 1 3
           (PyFloat (Binary64.literal 447 10)) 75).
  - apply small_int_finite. reflexivity.
  - discriminate.
  - repeat constructor.
  - exact rank_binary64_44_7.
  - lia.
Defined.

Section StillVideo.

Context {image : Type}.
Variable extract_features : image -> Np.ndarray.

Lemma sequencer_constant (items : list (Z * Np.ndarray)) (f : Np.ndarray) :
  Forall (fun it => snd it = f) items ->
  sequencer (Some f) items =
  map (fun it => (fst it, Torch.cosine_similarity f f)) items.
Proof.
  induction 1 as [| [k g] items Hg Hall IH]; cbn [sequencer map].
  - reflexivity.
  - simpl in Hg. subst g. now rewrite IH.
Qed.

Lemma still_similarities (cap : VideoCapture image) (img : image) :
  Forall (fun fr => pixels fr = img) cap ->
  calculate_similarities_parallel extract_features cap =
  map (fun fr => (Py.int (timestamp_of fr),
                  Torch.cosine_similarity (extract_features img)
                                          (extract_features img)))
      (tl (sampled_frames cap)).
Proof.
  intros Hall.
  rewrite calculate_similarities_sequencer.
  assert (Hs : Forall (fun fr => pixels fr = img) (sampled_frames cap)).
  { rewrite Forall_forall in *. intros fr Hfr. apply Hall.
    now apply (frame_sampler_In cap (-1)). }
  destruct (sampled_frames cap) as [| a frs]; [reflexivity |].
  inversion Hs as [| ? ? Ha Hfrs]; subst.
  cbn [map sequencer entry_of tl]. unfold entry_of at 1.
  rewrite (sequencer_constant _ (extract_features (pixels a))).
  - rewrite map_map. reflexivity.
  - apply Forall_map. eapply Forall_impl; [| exact Hfrs].
    intros fr Hfr. unfold entry_of. simpl. now rewrite Hfr.
Qed.

(** X9. A video that shows one picture throughout has one and the same
    similarity for every pair, the similarity of the picture's embedding
    with itself; when at least two frames are sampled and the rank lies in
    [0, 100], [detect_scene_changes] reports every sampled second after the
    first as a scene change, whatever [alpha] in the range of binary64
    is. *)
Theorem still_video_reports_every_second
    (fs : string -> option (VideoCapture image)) (video_path : string)
    (cap : VideoCapture image) (img : image) (alpha : R)
    (frame_per_minute : number) (rank : Z) :
  finite_number alpha ->
  fs video_path = Some cap ->
  Forall (fun fr => pixels fr = img) cap ->
  (2 <= length (sampled_frames cap))%nat ->
  percentile_rank_binary64 frame_per_minute = Ok rank ->
  (0 <= rank <= 100)%Z ->
  Forall (fun p => snd p = Torch.cosine_similarity (extract_features img)
                                                   (extract_features img))
         (calculate_similarities_parallel extract_features cap)
  /\ detect_scene_changes_binary64 extract_features fs video_path alpha
       frame_per_minute =
     Ok (map Py.int (tl (sampled_timestamps cap))).
Proof.
  intros _ Hfs Hall Hlen Hq Hrank.
  assert (Hone : Forall (fun p => snd p = Torch.cosine_similarity
                                            (extract_features img)
                                            (extract_features img))
                        (calculate_similarities_parallel extract_features cap)).
  { rewrite (still_similarities cap img Hall). apply Forall_map.
    apply Forall_forall. intros fr _. reflexivity. }
  split; [exact Hone |].
  rewrite (detect_scene_changes_binary64_segment extract_features fs video_path cap)
    by exact Hfs.
  rewrite <- (similarity_keys extract_features).
  apply (segment_similarities_binary64_constant _
           (Torch.cosine_similarity (extract_features img) (extract_features img))
           alpha frame_per_minute rank);
    [| exact Hone | exact Hq | exact Hrank].
  intros E. apply (f_equal (@length _)) in E.
  rewrite <- (length_map fst), similarity_keys, length_map in E.
  unfold sampled_timestamps in E. rewrite tl_map, length_map in E.
  destruct (sampled_frames cap) as [| a [| b l]]; simpl in *; try lia; discriminate.
Qed.

End StillVideo.

Lemma still_video_reports_every_second_witness :
  Forall (fun p => snd p = Torch.cosine_similarity
                            (Examples.pixels_as_features [1])
                            (Examples.pixels_as_features [1]))
    (calculate_similarities_parallel Examples.pixels_as_features Examples.still_clip)
  /\ detect_scene_changes_binary64 Examples.pixels_as_features
       (Examples.disk Examples.still_clip) "clip.mp4" 5 (PyInt 0) =
     Ok (map Py.int (tl (sampled_timestamps Examples.still_clip))).
Proof.
  apply (still_video_reports_every_second Examples.pixels_as_features
           (Examples.disk Examples.still_clip) "clip.mp4" Examples.still_clip [1] 5
           (PyInt 0) 0).
  - apply small_int_finite. reflexivity.
  - reflexivity.
  - repeat constructor.
  - rewrite sampled_still_clip. simpl. lia.
  - exact rank_binary64_0.
  - lia.
Defined.

(** ** Order statistics *)

Lemma insert_In (x y : R) (l : list R) : In y (Np.insert x l) <-> y = x \/ In y l.
Proof.
  induction l as [| z l IH]; simpl.
  - intuition.
  - destruct (Rle_dec x z); simpl; [intuition |].
    rewrite IH. intuition.
Qed.

Lemma sort_In (a : list R) (y : R) : In y (Np.sort a) <-> In y a.
Proof.
  induction a as [| x a IH]; simpl; [reflexivity |].
  rewrite insert_In. fold (Np.sort a). rewrite IH. intuition.
Qed.

Lemma insert_sorted (x : R) (l : list R) :
  StronglySorted Rle l -> StronglySorted Rle (Np.insert x l).
Proof.
  induction 1 as [| y l Hs IH Hall]; simpl.
  - repeat constructor.
  - destruct (Rle_dec x y) as [Hxy | Hxy].
    + constructor; [now constructor |].
      constructor; [exact Hxy |].
      eapply Forall_impl; [| exact Hall]. simpl. intros z Hz. lra.
    + constructor; [exact IH |].
      apply insert_Forall; [lra | exact Hall].
Qed.

Lemma sort_sorted (a : list R) : StronglySorted Rle (Np.sort a).
Proof.
  induction a as [| x a IH]; simpl; [constructor |].
  now apply insert_sorted.
Qed.

Lemma sorted_nth_le (s : list R) (i j : nat) :
  StronglySorted Rle s -> (i <= j < length s)%nat -> nth i s 0 <= nth j s 0.
Proof.
  intros Hs [Hij Hj].
  destruct (Nat.eq_dec i j) as [E | E]; [subst; lra |].
  apply (StronglySorted_nth_error Rle s i j); [exact Hs | lia | |];
    apply nth_error_nth'; lia.
Qed.

Lemma percentile_between (a : list R) (q : Z) (m M : R) :
  a <> [] -> (0 <= q <= 100)%Z ->
  Forall (fun x => m <= x <= M) a ->
  exists v, Np.percentile a q = Ok v /\ m <= v <= M.
Proof.
  intros Hne Hq Hall.
  destruct (percentile_interpolation a q Hne Hq) as [Hidx [Hg Hp]].
  cbv zeta in *.
  set (n := length a) in *.
  set (vi := (INR n - 1) * (IZR q / 100)) in *.
  set (lo := Z.to_nat (Int_part vi)) in *.
  set (hi := Nat.min (S lo) (n - 1)) in *.
  pose proof (sort_Forall _ a Hall) as Hs.
  pose proof (nth_Forall _ _ lo Hs) as Hlo.
  pose proof (nth_Forall _ _ hi Hs) as Hhi.
  rewrite sort_length in Hlo, Hhi. fold n in Hlo, Hhi.
  specialize (Hlo ltac:(lia)). specialize (Hhi ltac:(lia)). simpl in Hlo, Hhi.
  eexists. split; [exact Hp |].
  set (g := vi - INR lo) in *.
  assert (0 <= g < 1) by (subst g; lra).
  split; nra.
Qed.

(** ** What the selection always contains *)

Lemma upper_bound_exists (a : list R) : exists M, Forall (fun x => x <= M) a.
Proof.
  induction a as [| x a [M IH]].
  - exists 0. constructor.
  - exists (Rmax x M). constructor; [apply Rmax_l |].
    eapply Forall_impl; [| exact IH]. simpl. intros y Hy.
    pose proof (Rmax_r x M). lra.
Qed.

Lemma lowest_pair_exists (sims : list (Z * R)) :
  sims <> [] -> exists p, In p sims /\ Forall (fun q => snd p <= snd q) sims.
Proof.
  induction sims as [| x sims IH]; intros Hne; [contradiction |].
  destruct sims as [| y sims].
  - exists x. split; [now left | constructor; [lra | constructor]].
  - destruct (IH ltac:(discriminate)) as [p [Hin Hall]].
    destruct (Rle_dec (snd x) (snd p)) as [Hxp | Hxp].
    + exists x. split; [now left |].
      constructor; [lra |].
      eapply Forall_impl; [| exact Hall]. simpl. intros q Hq. lra.
    + exists p. split; [now right |].
      constructor; [lra | exact Hall].
Qed.

Lemma percentile_at_least_lowest (sims : list (Z * R)) (q : Z) (p : Z * R) (v : R) :
  Forall (fun x => snd p <= snd x) sims ->
  Np.percentile (map snd sims) q = Ok v ->
  sims <> [] -> (0 <= q <= 100)%Z ->
  snd p <= v.
Proof.
  intros Hall Hv Hne Hq.
  destruct (upper_bound_exists (map snd sims)) as [M HM].
  assert (Hb : Forall (fun x => snd p <= x <= M) (map snd sims)).
  { rewrite Forall_forall in *. intros x Hx. split; [| now apply HM].
    apply in_map_iff in Hx. destruct Hx as [y [Hy Hin]]. subst x. now apply Hall. }
  destruct (percentile_between (map snd sims) q (snd p) M) as [v' [Hv' Hbv]];
    [destruct sims; [contradiction | discriminate] | exact Hq | exact Hb |].
  rewrite Hv in Hv'. inversion Hv'. lra.
Qed.

Lemma segment_contains_lowest (sims : list (Z * R))
    (alpha frame_per_minute : R) (scene_changes : list Z) (p : Z * R) :
  segment_similarities sims alpha frame_per_minute = Ok scene_changes ->
  In p sims ->
  Forall (fun q => snd p <= snd q) sims ->
  In (fst p) scene_changes.
Proof.
  intros Hout Hin Hlow.
  assert (Hne : sims <> []) by (intros E; subst; contradiction).
  rewrite segment_similarities_percentile in Hout by exact Hne.
  destruct (Np.percentile (map snd sims) (Py.round (1 / 60 * 100 * frame_per_minute)))
    as [v | e] eqn:Hv; [| discriminate].
  simpl in Hout. inversion Hout; subst scene_changes. clear Hout.
  assert (Hq : (0 <= Py.round (1 / 60 * 100 * frame_per_minute) <= 100)%Z).
  { destruct (Z_le_dec 0 (Py.round (1 / 60 * 100 * frame_per_minute)));
      destruct (Z_le_dec (Py.round (1 / 60 * 100 * frame_per_minute)) 100);
      try lia; rewrite percentile_out_of_range in Hv by lia; discriminate. }
  pose proof (percentile_at_least_lowest sims _ p v Hlow Hv Hne Hq) as Hpv.
  rewrite selection_loop_filter. simpl.
  apply in_map. apply filter_In. split; [exact Hin |].
  unfold mean_branch, percentile_branch.
  destruct (Py.Rleb (snd p) (threshold_of sims alpha)); simpl; [reflexivity |].
  now apply Rleb_true.
Qed.

Lemma segment_similarities_never_empty (sims : list (Z * R))
    (alpha frame_per_minute : R) :
  segment_similarities sims alpha frame_per_minute <> Ok [].
Proof.
  intros Hout.
  destruct sims as [| x sims'] eqn:E; [discriminate |].
  destruct (lowest_pair_exists (x :: sims') ltac:(discriminate)) as [p [Hin Hlow]].
  exact (segment_contains_lowest _ _ _ _ p Hout Hin Hlow).
Qed.

(** X11. Whenever [detect_scene_changes] returns, the pairs of lowest similarity
    are among the scene changes, whatever [alpha] and [frame_per_minute]
    are: the percentile value is never below the lowest score. *)
Theorem lowest_similarity_always_selected {image : Type}
    (extract_features : image -> Np.ndarray)
    (fs : string -> option (VideoCapture image)) (video_path : string)
    (cap : VideoCapture image) (alpha frame_per_minute : R)
    (scene_changes : list Z) (p : Z * R) :
  fs video_path = Some cap ->
  detect_scene_changes extract_features fs video_path alpha frame_per_minute =
  Ok scene_changes ->
  In p (calculate_similarities_parallel extract_features cap) ->
  Forall (fun q => snd p <= snd q)
         (calculate_similarities_parallel extract_features cap) ->
  In (fst p) scene_changes.
Proof.
  intros Hfs Hout Hin Hlow.
  rewrite (detect_scene_changes_segment extract_features fs video_path cap) in Hout
    by exact Hfs.
  exact (segment_contains_lowest _ _ _ _ p Hout Hin Hlow).
Qed.

(** X12. [detect_scene_changes] never returns an empty list: it either raises or
    reports at least one scene change. *)
Theorem detect_scene_changes_never_empty {image : Type}
    (extract_features : image -> Np.ndarray)
    (fs : string -> option (VideoCapture image)) (video_path : string)
    (alpha frame_per_minute : R) :
  detect_scene_changes extract_features fs video_path alpha frame_per_minute <> Ok [].
Proof.
  unfold detect_scene_changes.
  destruct (fs video_path) as [cap |]; [| discriminate].
  apply segment_similarities_never_empty.
Qed.

(** ** The percentile rank *)

Lemma round_bounds (x : R) : x - 1 / 2 <= IZR (Py.round x) <= x + 1 / 2.
Proof.
  pose proof (Int_part_bounds x) as B. unfold Py.round.
  destruct (Rlt_dec (x - IZR (Int_part x)) (1 / 2)) as [L | L]; [lra |].
  destruct (Rlt_dec (1 / 2) (x - IZR (Int_part x))) as [G | G];
    [rewrite plus_IZR; lra |].
  destruct (Z.even (Int_part x)); [lra | rewrite plus_IZR; lra].
Qed.

Lemma round_monotone (x y : R) : x <= y -> (Py.round x <= Py.round y)%Z.
Proof.
  intros Hxy.
  destruct (Z_le_dec (Py.round x) (Py.round y)) as [H | H]; [exact H | exfalso].
  assert (H1 : (Py.round y + 1 <= Py.round x)%Z) by lia.
  apply IZR_le in H1. rewrite plus_IZR in H1.
  pose proof (round_bounds x). pose proof (round_bounds y).
  assert (E : x = y) by lra. subst y. lia.
Qed.

(** ** The outcomes of [detect_scene_changes] *)

Lemma not_the_second_assertion (video_path : string) :
  String.append video_path " does not exist" <> "similarity_scores is empty".
Proof.
  intros H.
  do 26 (destruct video_path as [| ? video_path]; simpl in H;
         [discriminate H | injection H as _ H]).
  destruct video_path; discriminate H.
Qed.

Lemma segment_similarities_binary64_never_empty (sims : list (Z * R)) (alpha : R)
    (frame_per_minute : number) :
  segment_similarities_binary64 sims alpha frame_per_minute <> Ok [].
Proof.
  destruct (percentile_rank_binary64 frame_per_minute) as [q | e] eqn:Hq.
  - rewrite (segment_similarities_binary64_at_rank sims alpha frame_per_minute q Hq).
    apply segment_similarities_never_empty.
  - destruct sims as [| p sims]; [discriminate |].
    rewrite segment_similarities_binary64_rank, Hq by discriminate. discriminate.
Qed.

Lemma detect_scene_changes_at_infinity :
  detect_scene_changes_binary64 Examples.pixels_as_features
    (Examples.disk Examples.still_clip) "clip.mp4" 0 (PyFloat Binary64.infinity) =
  Raise (OverflowError "cannot convert float infinity to integer").
Proof.
  rewrite (detect_scene_changes_binary64_segment _ _ _ Examples.still_clip)
    by apply disk_clip.
  rewrite similarities_still_clip. reflexivity.
Qed.

Lemma detect_scene_changes_at_huge_int :
  detect_scene_changes_binary64 Examples.pixels_as_features
    (Examples.disk Examples.still_clip) "clip.mp4" 0 (PyInt (10 ^ 400)) =
  Raise (OverflowError "int too large to convert to float").
Proof.
  rewrite (detect_scene_changes_binary64_segment _ _ _ Examples.still_clip)
    by apply disk_clip.
  rewrite similarities_still_clip.
  rewrite segment_similarities_binary64_rank by discriminate.
  replace (percentile_rank_binary64 (PyInt (10 ^ 400)))
    with (@Raise Z (OverflowError "int too large to convert to float"))
    by (vm_compute; reflexivity).
  reflexivity.
Qed.

Lemma as_float_of_int :
  as_float (PyInt 60) = Ok (Binary64.of_Z 60)
  /\ as_float (PyInt Binary64.max_value) = Ok (Binary64.of_Z Binary64.max_value)
  /\ as_float (PyInt (2 ^ 1024)) =
     Raise (OverflowError "int too large to convert to float").
Proof. repeat split; vm_compute; reflexivity. Qed.

Lemma rank_product_infinity_nan :
  rank_product Binary64.infinity = S754_infinity false
  /\ rank_product (S754_infinity true) = S754_infinity true
  /\ rank_product Binary64.nan = S754_nan.
Proof. repeat split; vm_compute; reflexivity. Qed.

(** X13. For [alpha] in the range of binary64 and any number
    [frame_per_minute], the outcome of a call is decided by these tests, in
    this order: a path that is no file fails the first assertion; a video
    with fewer than two sampled frames fails [similarities is empty]; an
    int [frame_per_minute] too large for a float raises [OverflowError] in
    the product; a product [1 / 60 * 100 * frame_per_minute] that is NaN or
    infinite in binary64 makes [round] raise [ValueError] or
    [OverflowError]; a rank outside [0, 100] ends in the [ValueError] of the
    percentile; otherwise a non-empty list is returned. *)
Theorem detect_scene_changes_outcomes {image : Type}
    (extract_features : image -> Np.ndarray)
    (fs : string -> option (VideoCapture image)) (video_path : string)
    (alpha : R) (frame_per_minute : number) :
  finite_number alpha ->
  let outcome :=
    detect_scene_changes_binary64 extract_features fs video_path alpha
      frame_per_minute in
  match fs video_path with
  | None =>
      outcome = Raise (AssertionError (String.append video_path " does not exist"))
  | Some cap =>
      if (length (sampled_frames cap) <? 2)%nat then
        outcome = Raise (AssertionError "similarities is empty")
      else
        match as_float frame_per_minute with
        | Raise _ =>
            outcome = Raise (OverflowError "int too large to convert to float")
        | Ok x =>
            match rank_product x with
            | S754_nan =>
                outcome = Raise (ValueError "cannot convert float NaN to integer")
            | S754_infinity _ =>
                outcome =
                Raise (OverflowError "cannot convert float infinity to integer")
            | product =>
                exists rank,
                  Binary64.round product = Ok rank
                  /\ (((rank < 0 \/ 100 < rank)%Z
                       /\ outcome =
                          Raise (ValueError
                                   "Percentiles must be in the range [0, 100]"))
                      \/ ((0 <= rank <= 100)%Z
                          /\ exists scene_changes,
                               outcome = Ok scene_changes /\ scene_changes <> []))
            end
        end
  end.
Proof.
  intros _ outcome.
  destruct (fs video_path) as [cap |] eqn:Hfs.
  2: { subst outcome. unfold detect_scene_changes_binary64. now rewrite Hfs. }
  assert (Hseg : outcome =
                 segment_similarities_binary64
                   (calculate_similarities_parallel extract_features cap)
                   alpha frame_per_minute)
    by (subst outcome; now apply detect_scene_changes_binary64_segment).
  assert (Hlen : length (calculate_similarities_parallel extract_features cap)
                 = (length (sampled_frames cap) - 1)%nat).
  { rewrite <- (length_map fst), similarity_keys, length_map.
    unfold sampled_timestamps. rewrite tl_map, length_map.
    destruct (sampled_frames cap); simpl; lia. }
  destruct (Nat.ltb_spec (length (sampled_frames cap)) 2) as [H2 | H2].
  { rewrite Hseg.
    destruct (calculate_similarities_parallel extract_features cap) as [| p l];
      [reflexivity | simpl in Hlen; lia]. }
  assert (Hne : calculate_similarities_parallel extract_features cap <> []).
  { intros E. rewrite E in Hlen. simpl in Hlen. lia. }
  rewrite segment_similarities_binary64_rank in Hseg by exact Hne.
  unfold percentile_rank_binary64 in Hseg.
  destruct (as_float frame_per_minute) as [x | e] eqn:Hx.
  2: { cbn [bind] in Hseg. rewrite Hseg. f_equal.
       destruct frame_per_minute as [z | y]; [| discriminate Hx].
       unfold as_float in Hx.
       destruct (Binary64.of_Z z); try discriminate Hx.
       now injection Hx as <-. }
  cbn [bind] in Hseg.
  assert (Hfinite : forall rank,
            Binary64.round (rank_product x) = Ok rank ->
            ((rank < 0 \/ 100 < rank)%Z
             /\ outcome = Raise (ValueError "Percentiles must be in the range [0, 100]"))
            \/ ((0 <= rank <= 100)%Z
                /\ exists scene_changes,
                     outcome = Ok scene_changes /\ scene_changes <> [])).
  { intros rank Hq. rewrite Hq in Hseg. cbn [bind] in Hseg.
    destruct (Z_le_dec 0 rank) as [H0 | H0];
      [destruct (Z_le_dec rank 100) as [H1 | H1] |].
    - right. split; [lia |].
      destruct (percentile_in_range
                  (map snd (calculate_similarities_parallel extract_features cap))
                  rank (conj H0 H1)) as [pct Hpct].
      rewrite Hpct in Hseg. cbn [bind] in Hseg.
      eexists. split; [exact Hseg |].
      intros E.
      apply (segment_similarities_binary64_never_empty
               (calculate_similarities_parallel extract_features cap)
               alpha frame_per_minute).
      rewrite segment_similarities_binary64_rank by exact Hne.
      unfold percentile_rank_binary64. rewrite Hx. cbn [bind]. rewrite Hq.
      cbn [bind]. rewrite Hpct. cbn [bind]. now rewrite E.
    - left. split; [lia |].
      rewrite percentile_out_of_range in Hseg by lia. exact Hseg.
    - left. split; [lia |].
      rewrite percentile_out_of_range in Hseg by lia. exact Hseg. }
  destruct (rank_product x) as [b | b | | b m e] eqn:Hp.
  - exists 0%Z. split; [reflexivity |]. now apply Hfinite.
  - exact Hseg.
  - exact Hseg.
  - eexists. split; [reflexivity |]. now apply Hfinite.
Qed.

Lemma detect_scene_changes_outcomes_witness :
  let outcome :=
    detect_scene_changes_binary64 Examples.pixels_as_features
      (Examples.disk Examples.still_clip) "clip.mp4" 2
      (PyInt (10 ^ 400)) in
  match Examples.disk Examples.still_clip "clip.mp4" with
  | None => outcome = Raise (AssertionError "clip.mp4 does not exist")
  | Some cap =>
      if (length (sampled_frames cap) <? 2)%nat then
        outcome = Raise (AssertionError "similarities is empty")
      else
        match as_float (PyInt (10 ^ 400)) with
        | Raise _ =>
            outcome = Raise (OverflowError "int too large to convert to float")
        | Ok x =>
            match rank_product x with
            | S754_nan =>
                outcome = Raise (ValueError "cannot convert float NaN to integer")
            | S754_infinity _ =>
                outcome =
                Raise (OverflowError "cannot convert float infinity to integer")
            | product =>
                exists rank,
                  Binary64.round product = Ok rank
                  /\ (((rank < 0 \/ 100 < rank)%Z
                       /\ outcome =
                          Raise (ValueError
                                   "Percentiles must be in the range [0, 100]"))
                      \/ ((0 <= rank <= 100)%Z
                          /\ exists scene_changes,
                               outcome = Ok scene_changes /\ scene_changes <> []))
            end
        end
  end.
Proof.
  apply (detect_scene_changes_outcomes Examples.pixels_as_features
           (Examples.disk Examples.still_clip) "clip.mp4" 2 (PyInt (10 ^ 400))).
  apply small_int_finite. reflexivity.
Defined.

Lemma segment_not_second_assertion (sims : list (Z * R)) (alpha frame_per_minute : R) :
  segment_similarities sims alpha frame_per_minute
  <> Raise (AssertionError "similarity_scores is empty").
Proof.
  destruct sims as [| p sims]; [discriminate |].
  rewrite segment_similarities_percentile by discriminate.
  set (q := Py.round (1 / 60 * 100 * frame_per_minute)).
  destruct (Z_le_dec 0 q) as [H0 | H0]; [destruct (Z_le_dec q 100) as [H1 | H1] |].
  - destruct (percentile_in_range (map snd (p :: sims)) q (conj H0 H1)) as [v Hv].
    rewrite Hv. discriminate.
  - rewrite percentile_out_of_range by lia. discriminate.
  - rewrite percentile_out_of_range by lia. discriminate.
Qed.

(** X14. The assertion [similarity_scores is empty] can never fail: no call
    ends with it. *)
Theorem second_assertion_unreachable {image : Type}
    (extract_features : image -> Np.ndarray)
    (fs : string -> option (VideoCapture image)) (video_path : string)
    (alpha frame_per_minute : R) :
  detect_scene_changes extract_features fs video_path alpha frame_per_minute
  <> Raise (AssertionError "similarity_scores is empty").
Proof.
  unfold detect_scene_changes.
  destruct (fs video_path) as [cap |].
  - apply segment_not_second_assertion.
  - intros H. inversion H as [Hs]. exact (not_the_second_assertion _ Hs).
Qed.

(** ** The percentile cutoff *)

Lemma total_at_least (a : list R) (m : R) :
  Forall (fun x => m <= x) a -> INR (length a) * m <= Spec.total a.
Proof.
  induction 1 as [| x a Hx Ha IH]; unfold Spec.total in *.
  - simpl. lra.
  - cbn [fold_right length]. rewrite S_INR. lra.
Qed.

Lemma mean_at_least (a : list R) (m : R) :
  a <> [] -> Forall (fun x => m <= x) a -> m <= Np.mean a.
Proof.
  intros Hne Hall. rewrite mean_spec. unfold Spec.mean.
  pose proof (total_at_least a m Hall) as H.
  assert (Hn : 0 < INR (length a)).
  { apply lt_0_INR. destruct a; [contradiction | simpl; lia]. }
  apply Rmult_le_reg_r with (INR (length a)); [exact Hn |].
  unfold Rdiv. rewrite Rmult_assoc, Rinv_l by lra. lra.
Qed.

Lemma sort_first_lowest (a : list R) :
  a <> [] -> Forall (fun x => nth 0 (Np.sort a) 0 <= x) a.
Proof.
  intros Hne. apply Forall_forall. intros x Hx.
  apply sort_In in Hx. apply (In_nth _ _ 0) in Hx. destruct Hx as [i [Hi Hx]].
  rewrite <- Hx. apply sorted_nth_le; [apply sort_sorted | lia].
Qed.

Lemma sort_last_highest (a : list R) :
  Forall (fun x => x <= nth (length a - 1) (Np.sort a) 0) a.
Proof.
  apply Forall_forall. intros x Hx.
  apply sort_In in Hx. apply (In_nth _ _ 0) in Hx. destruct Hx as [i [Hi Hx]].
  rewrite <- Hx. rewrite sort_length in Hi.
  apply sorted_nth_le; [apply sort_sorted | rewrite sort_length; lia].
Qed.

Lemma percentile_100 (a : list R) :
  a <> [] -> Np.percentile a 100 = Ok (nth (length a - 1) (Np.sort a) 0).
Proof.
  intros Hne.
  destruct (percentile_interpolation a 100 Hne ltac:(lia)) as [Hidx [Hg Hp]].
  cbv zeta in *. rewrite Hp. clear Hp.
  set (n := length a) in *.
  assert (Hn : (0 < n)%nat) by (subst n; destruct a; [contradiction | simpl; lia]).
  replace ((INR n - 1) * (100 / 100)) with (IZR (Z.of_nat n - 1)) in *
    by (rewrite minus_IZR, <- INR_IZR_INZ; lra).
  rewrite Int_part_IZR in *.
  replace (Z.to_nat (Z.of_nat n - 1)) with (n - 1)%nat in * by lia.
  replace (Nat.min (S (n - 1)) (n - 1)) with (n - 1)%nat by lia.
  f_equal. lra.
Qed.

Lemma rank_60 : Py.round (1 / 60 * 100 * 60) = 100%Z.
Proof. replace (1 / 60 * 100 * 60) with (IZR 100) by lra. apply round_IZR. Qed.



(** X16. With the default parameters ([alpha = 0], [frame_per_minute = 0])
    the rank is 0 and the percentile value is the lowest score, so the
    result is exactly the timestamps, in order, of the pairs whose
    similarity is at most the threshold [mean - 0 * std] or at most the
    lowest score. *)
Theorem default_parameters_selection (sims : list (Z * R)) :
  sims <> [] ->
  exists lowest,
    In lowest (map snd sims)
    /\ Forall (fun x => lowest <= x) (map snd sims)
    /\ Np.percentile (map snd sims) 0 = Ok lowest
    /\ segment_similarities_binary64 sims 0 (PyInt 0) =
       Ok (map fst (filter (fun p => Py.Rleb (snd p) (threshold_of sims 0)
                                     || Py.Rleb (snd p) lowest) sims)).
Proof.
  intros Hne.
  assert (Hn : map snd sims <> []) by (destruct sims; [contradiction | discriminate]).
  exists (nth 0 (Np.sort (map snd sims)) 0).
  split.
  { apply sort_In. apply nth_In. rewrite sort_length.
    destruct (map snd sims); [contradiction | simpl; lia]. }
  split; [now apply sort_first_lowest |].
  split; [apply percentile_0 |].
  rewrite segment_similarities_binary64_rank by exact Hne.
  rewrite rank_binary64_0. cbn [bind]. rewrite percentile_0. cbn [bind].
  rewrite selection_loop_filter. simpl. do 2 f_equal.
  apply filter_ext. intros p. unfold mean_branch, percentile_branch.
  destruct (Py.Rleb (snd p) (threshold_of sims 0)); reflexivity.
Qed.

Lemma default_parameters_selection_witness :
  exists lowest,
    In lowest (map snd Examples.scenario)
    /\ Forall (fun x => lowest <= x) (map snd Examples.scenario)
    /\ Np.percentile (map snd Examples.scenario) 0 = Ok lowest
    /\ segment_similarities_binary64 Examples.scenario 0 (PyInt 0) =
       Ok (map fst (filter (fun p => Py.Rleb (snd p) (threshold_of Examples.scenario 0)
                                     || Py.Rleb (snd p) lowest) Examples.scenario)).
Proof. apply (default_parameters_selection Examples.scenario). discriminate. Defined.

Lemma percentile_monotone (a : list R) (q1 q2 : Z) (v1 v2 : R) :
  a <> [] -> (0 <= q1)%Z -> (q1 <= q2)%Z -> (q2 <= 100)%Z ->
  Np.percentile a q1 = Ok v1 -> Np.percentile a q2 = Ok v2 -> v1 <= v2.
Proof.
  intros Hne H0 H12 H100 Hv1 Hv2.
  destruct (percentile_interpolation a q1 Hne ltac:(lia)) as [Hi1 [Hg1 Hp1]].
  destruct (percentile_interpolation a q2 Hne ltac:(lia)) as [Hi2 [Hg2 Hp2]].
  cbv zeta in *.
  set (n := length a) in *.
  assert (Hn1 : 1 <= INR n).
  { change 1 with (INR 1). apply le_INR. destruct a; [contradiction | simpl; lia]. }
  set (vi1 := (INR n - 1) * (IZR q1 / 100)) in *.
  set (vi2 := (INR n - 1) * (IZR q2 / 100)) in *.
  assert (Hvi : vi1 <= vi2).
  { subst vi1 vi2. apply Rmult_le_compat_l; [lra |]. apply IZR_le in H12. lra. }
  set (lo1 := Z.to_nat (Int_part vi1)) in *.
  set (lo2 := Z.to_nat (Int_part vi2)) in *.
  set (hi1 := Nat.min (S lo1) (n - 1)) in *.
  set (hi2 := Nat.min (S lo2) (n - 1)) in *.
  assert (Hh1 : (hi1 <= S lo1)%nat) by (subst hi1; lia).
  assert (Hsame : lo1 = lo2 -> hi1 = hi2) by (intros E; subst hi1 hi2; now rewrite E).
  clearbody hi1 hi2 lo1 lo2 vi1 vi2.
  rewrite Hv1 in Hp1. rewrite Hv2 in Hp2.
  injection Hp1 as E1. injection Hp2 as E2. subst v1 v2.
  pose proof (sort_sorted a) as Hs.
  assert (Hlen : length (Np.sort a) = n) by apply sort_length.
  assert (Hlo : (lo1 <= lo2)%nat).
  { assert (Hlt : INR lo1 < INR (S lo2)) by (rewrite S_INR; lra).
    apply INR_lt in Hlt. lia. }
  pose proof (sorted_nth_le _ lo1 hi1 Hs ltac:(lia)) as A1.
  pose proof (sorted_nth_le _ lo2 hi2 Hs ltac:(lia)) as A2.
  set (g1 := vi1 - INR lo1) in *. set (g2 := vi2 - INR lo2) in *.
  assert (G1 : 0 <= g1 < 1) by (subst g1; lra).
  assert (G2 : 0 <= g2 < 1) by (subst g2; lra).
  destruct (Nat.eq_dec lo1 lo2) as [E | E].
  - assert (Hg : g1 <= g2) by (subst g1 g2; rewrite E; lra).
    clearbody g1 g2. rewrite (Hsame E), E in *.
    set (d := nth hi2 (Np.sort a) 0 - nth lo2 (Np.sort a) 0) in *.
    assert (0 <= d) by (subst d; lra).
    assert (d * g1 <= d * g2) by (apply Rmult_le_compat_l; lra).
    lra.
  - pose proof (sorted_nth_le _ hi1 lo2 Hs ltac:(lia)) as A3.
    clearbody g1 g2.
    set (d1 := nth hi1 (Np.sort a) 0 - nth lo1 (Np.sort a) 0) in *.
    set (d2 := nth hi2 (Np.sort a) 0 - nth lo2 (Np.sort a) 0) in *.
    assert (0 <= d1) by (subst d1; lra). assert (0 <= d2) by (subst d2; lra).
    assert (d1 * g1 <= d1 * 1) by (apply Rmult_le_compat_l; lra).
    assert (0 <= d2 * g2) by (apply Rmult_le_pos; lra).
    subst d1. lra.
Qed.

(** X17. Raising [frame_per_minute] can only add scene changes: for
    [fpm1 <= fpm2] and one [alpha], every timestamp selected at [fpm1] is
    selected at [fpm2]. *)
Theorem more_per_minute_selects_more (sims : list (Z * R)) (alpha fpm1 fpm2 : R)
    (out1 out2 : list Z) :
  fpm1 <= fpm2 ->
  segment_similarities sims alpha fpm1 = Ok out1 ->
  segment_similarities sims alpha fpm2 = Ok out2 ->
  incl out1 out2.
Proof.
  intros Hfpm H1 H2.
  assert (Hne : sims <> []) by (intros E; subst; discriminate).
  assert (Hn : map snd sims <> []) by (destruct sims; [contradiction | discriminate]).
  rewrite segment_similarities_percentile in H1, H2 by exact Hne.
  set (q1 := Py.round (1 / 60 * 100 * fpm1)) in *.
  set (q2 := Py.round (1 / 60 * 100 * fpm2)) in *.
  assert (Hq : (q1 <= q2)%Z) by (apply round_monotone; lra).
  destruct (Np.percentile (map snd sims) q1) as [v1 | e1] eqn:Hv1; [| discriminate].
  destruct (Np.percentile (map snd sims) q2) as [v2 | e2] eqn:Hv2; [| discriminate].
  assert (Hq1 : (0 <= q1)%Z).
  { destruct (Z_le_dec 0 q1); [assumption |].
    rewrite percentile_out_of_range in Hv1 by lia. discriminate. }
  assert (Hq2 : (q2 <= 100)%Z).
  { destruct (Z_le_dec q2 100); [assumption |].
    rewrite percentile_out_of_range in Hv2 by lia. discriminate. }
  pose proof (percentile_monotone _ q1 q2 v1 v2 Hn Hq1 Hq Hq2 Hv1 Hv2) as Hv.
  simpl in H1, H2. inversion H1; inversion H2; subst out1 out2.
  rewrite !selection_loop_filter. simpl.
  intros k Hk. rewrite in_map_iff in *. destruct Hk as [p [Hp Hin]].
  exists p. split; [exact Hp |].
  apply filter_In in Hin. apply filter_In. destruct Hin as [Hin Hb].
  split; [exact Hin |].
  unfold mean_branch, percentile_branch in *.
  destruct (Py.Rleb (snd p) (threshold_of sims alpha)); simpl in *; [reflexivity |].
  apply Rleb_true in Hb. apply Rleb_true. lra.
Qed.

(** X18. Raising [alpha] can only remove scene changes from the result: for
    [alpha1 <= alpha2] and one [frame_per_minute], every timestamp returned
    at [alpha2] is returned at [alpha1]. *)
Theorem larger_alpha_selects_less (sims : list (Z * R))
    (alpha1 alpha2 frame_per_minute : R) (out1 out2 : list Z) :
  alpha1 <= alpha2 ->
  segment_similarities sims alpha1 frame_per_minute = Ok out1 ->
  segment_similarities sims alpha2 frame_per_minute = Ok out2 ->
  incl out2 out1.
Proof.
  intros Ha H1 H2.
  assert (Hne : sims <> []) by (intros E; subst; discriminate).
  rewrite segment_similarities_percentile in H1, H2 by exact Hne.
  destruct (Np.percentile (map snd sims) (Py.round (1 / 60 * 100 * frame_per_minute)))
    as [v | e]; [| discriminate].
  simpl in H1, H2. inversion H1; inversion H2; subst out1 out2.
  assert (Hthr : threshold_of sims alpha2 <= threshold_of sims alpha1).
  { unfold threshold_of. pose proof (std_nonneg (map snd sims)). nra. }
  rewrite !selection_loop_filter. simpl.
  intros k Hk. rewrite in_map_iff in *. destruct Hk as [p [Hp Hin]].
  exists p. split; [exact Hp |].
  apply filter_In in Hin. apply filter_In. destruct Hin as [Hin Hb].
  split; [exact Hin |].
  unfold mean_branch, percentile_branch in *.
  destruct (Py.Rleb (snd p) (threshold_of sims alpha1)) eqn:E1; simpl; [reflexivity |].
  apply Rleb_false in E1.
  destruct (Py.Rleb (snd p) (threshold_of sims alpha2)) eqn:E2; simpl in Hb;
    [apply Rleb_true in E2; lra | exact Hb].
Qed.

(** ** Witnesses on the concrete inputs *)

Lemma scenario_at_rank_0 : segment_similarities Examples.scenario 1 0 = Ok [2%Z].
Proof.
  rewrite (segment_similarities_run _ 1 0 0.10);
    [| discriminate | exact scenario_percentile].
  pose proof scenario_threshold as [Hlo Hhi].
  unfold Examples.scenario at 2. cbn [selection_loop].
  rewrite (proj2 (Rleb_false 0.95 _)) by lra.
  rewrite (proj2 (Rleb_false 0.95 0.10)) by lra.
  rewrite (proj2 (Rleb_true 0.10 _)) by lra.
  rewrite (proj2 (Rleb_false 0.92 _)) by lra.
  rewrite (proj2 (Rleb_false 0.92 0.10)) by lra.
  rewrite (proj2 (Rleb_false 0.93 _)) by lra.
  rewrite (proj2 (Rleb_false 0.93 0.10)) by lra.
  reflexivity.
Qed.

Lemma scenario_at_rank_100 :
  segment_similarities Examples.scenario 1 60 = Ok [1%Z; 2%Z; 3%Z; 4%Z].
Proof.
  assert (Hn : map snd Examples.scenario <> []) by discriminate.
  rewrite (segment_similarities_run Examples.scenario 1 60 _ ltac:(discriminate))
    by (rewrite rank_60; now apply percentile_100).
  rewrite selection_all_below_cutoff; [reflexivity |].
  pose proof (sort_last_highest (map snd Examples.scenario)) as Hmax.
  rewrite Forall_forall in *. intros p Hp. apply Hmax. now apply in_map.
Qed.

Lemma more_per_minute_selects_more_witness : incl [2%Z] [1%Z; 2%Z; 3%Z; 4%Z].
Proof.
  apply (more_per_minute_selects_more Examples.scenario 1 0 60).
  - lra.
  - exact scenario_at_rank_0.
  - exact scenario_at_rank_100.
Defined.

Lemma segment_similarities_constant_any (sims : list (Z * R))
    (s alpha frame_per_minute : R) :
  sims <> [] ->
  Forall (fun p => snd p = s) sims ->
  (0 <= Py.round (1 / 60 * 100 * frame_per_minute) <= 100)%Z ->
  segment_similarities sims alpha frame_per_minute = Ok (map fst sims).
Proof.
  intros Hne Hall Hrank.
  rewrite (segment_similarities_run sims alpha frame_per_minute s Hne).
  - f_equal. apply selection_all_below_cutoff.
    eapply Forall_impl; [| exact Hall]. intros p Hp. simpl in Hp. lra.
  - apply percentile_constant; [| now apply Forall_map | exact Hrank].
    destruct sims; [contradiction | discriminate].
Qed.

Lemma flat_at_alpha (alpha : R) :
  segment_similarities Examples.flat alpha 0 = Ok [1%Z; 2%Z].
Proof.
  apply (segment_similarities_constant_any Examples.flat 1 alpha 0).
  - discriminate.
  - repeat constructor.
  - rewrite rank_0. lia.
Qed.

Lemma larger_alpha_selects_less_witness : incl [1%Z; 2%Z] [1%Z; 2%Z].
Proof.
  apply (larger_alpha_selects_less Examples.flat 0 2 0).
  - lra.
  - apply flat_at_alpha.
  - apply flat_at_alpha.
Defined.

Lemma similarity_of_consecutive_samples_witness :
  nth_error
    (calculate_similarities_parallel Examples.pixels_as_features Examples.still_clip) 1 =
  Some (Py.int (timestamp_of (Frame 2000 [1])),
        Torch.cosine_similarity
          (Examples.pixels_as_features (pixels (Frame 2000 [1])))
          (Examples.pixels_as_features (pixels (Frame 1000 [1])))).
Proof.
  apply (similarity_of_consecutive_samples Examples.pixels_as_features
           Examples.still_clip 1 (Frame 1000 [1]) (Frame 2000 [1])).
  - rewrite sampled_still_clip. reflexivity.
  - rewrite sampled_still_clip. reflexivity.
Defined.

Lemma similarity_timestamp_lower_bound_witness : (Z.of_nat 1 + 1 <= 2)%Z.
Proof.
  apply (similarity_timestamp_lower_bound Examples.pixels_as_features
           Examples.still_clip 1 2 1).
  rewrite similarities_still_clip. reflexivity.
Defined.


Lemma similarity_count_bounded_by_duration_witness :
  INR (length (calculate_similarities_parallel Examples.pixels_as_features
                 Examples.still_clip)) <= Rmax 0 2.
Proof.
  apply (similarity_count_bounded_by_duration Examples.pixels_as_features
           Examples.still_clip 2).
  unfold Examples.still_clip, timestamp_of. repeat constructor; simpl; lra.
Defined.

Lemma lowest_similarity_always_selected_witness : In 1%Z [1%Z; 2%Z].
Proof.
  apply (lowest_similarity_always_selected Examples.pixels_as_features
           (Examples.disk Examples.still_clip) "clip.mp4" Examples.still_clip
           0 0 [1%Z; 2%Z] (1%Z, 1)).
  - reflexivity.
  - apply detect_still_clip.
  - rewrite similarities_still_clip. now left.
  - rewrite similarities_still_clip. unfold Examples.flat.
    repeat constructor; simpl; lra.
Defined.

(** ** The preprocessing of [extract_features] *)

Lemma pow_pos_IZR (p : positive) : IZR (Z.pow_pos 2 p) = 2 ^ Pos.to_nat p.
Proof.
  rewrite pow_IZR, positive_nat_Z. reflexivity.
Qed.

Lemma pow_pos_positive (p : positive) : 0 < IZR (Z.pow_pos 2 p).
Proof. rewrite pow_pos_IZR. apply pow_lt. lra. Qed.

Lemma ratio_le (a b c d : R) : 0 < b -> 0 < d -> a * d <= c * b -> a * / b <= c / d.
Proof.
  intros Hb Hd H. apply Rmult_le_reg_r with (b * d); [now apply Rmult_lt_0_compat |].
  replace (a * / b * (b * d)) with (a * d) by (field; lra).
  replace (c / d * (b * d)) with (c * b) by (field; lra).
  exact H.
Qed.

Lemma ratio_ge (a b c d : R) : 0 < b -> 0 < d -> c * b <= a * d -> c / d <= a * / b.
Proof.
  intros Hb Hd H. apply Rmult_le_reg_r with (b * d); [now apply Rmult_lt_0_compat |].
  replace (a * / b * (b * d)) with (a * d) by (field; lra).
  replace (c / d * (b * d)) with (c * b) by (field; lra).
  exact H.
Qed.

Lemma le_div (a n d : R) : 0 < d -> a * d <= n -> a <= n / d.
Proof.
  intros Hd H. apply Rmult_le_reg_r with d; [exact Hd |].
  replace (n / d * d) with n by (field; lra). exact H.
Qed.

Lemma ge_div (a n d : R) : 0 < d -> n <= a * d -> n / d <= a.
Proof.
  intros Hd H. apply Rmult_le_reg_r with d; [exact Hd |].
  replace (n / d * d) with n by (field; lra). exact H.
Qed.

Lemma leb_ratio_sound (x : Binary32.float) (n : Z) (d : positive) :
  Binary32.leb_ratio x n d = true ->
  Binary32.is_finite x = true /\ Binary32.to_R x <= IZR n / IZR (Zpos d).
Proof.
  assert (Hd : 0 < IZR (Zpos d)) by (apply IZR_lt; lia).
  unfold Binary32.leb_ratio, Binary32.is_finite, Binary32.to_R.
  destruct x as [s | s | | s m e]; try discriminate.
  - intros H. apply Z.leb_le in H. apply IZR_le in H.
    split; [reflexivity |]. apply le_div; lra.
  - set (z := cond_Zopp s (Zpos m)).
    destruct e as [| p | p]; intros H; apply Z.leb_le in H; apply IZR_le in H;
      (split; [reflexivity |]); unfold powerRZ.
    + rewrite Z.pow_0_r, Z.mul_1_r, mult_IZR in H. apply le_div; [exact Hd | lra].
    + change (2 ^ Z.pos p)%Z with (Z.pow_pos 2 p) in H.
      rewrite !mult_IZR, pow_pos_IZR in H. apply le_div; [exact Hd | exact H].
    + rewrite !mult_IZR in H. pose proof (pow_pos_positive p) as Hp.
      rewrite <- pow_pos_IZR. now apply ratio_le.
Qed.

Lemma geb_ratio_sound (x : Binary32.float) (n : Z) (d : positive) :
  Binary32.geb_ratio x n d = true -> IZR n / IZR (Zpos d) <= Binary32.to_R x.
Proof.
  assert (Hd : 0 < IZR (Zpos d)) by (apply IZR_lt; lia).
  unfold Binary32.geb_ratio, Binary32.to_R.
  destruct x as [s | s | | s m e]; try discriminate.
  - intros H. apply Z.leb_le in H. apply IZR_le in H. apply ge_div; lra.
  - set (z := cond_Zopp s (Zpos m)).
    destruct e as [| p | p]; intros H; apply Z.leb_le in H; apply IZR_le in H;
      unfold powerRZ.
    + rewrite Z.pow_0_r, Z.mul_1_r, mult_IZR in H. apply ge_div; [exact Hd | lra].
    + change (2 ^ Z.pos p)%Z with (Z.pow_pos 2 p) in H.
      rewrite !mult_IZR, pow_pos_IZR in H. apply ge_div; [exact Hd | exact H].
    + rewrite !mult_IZR in H. pose proof (pow_pos_positive p) as Hp.
      rewrite <- pow_pos_IZR. now apply ratio_ge.
Qed.

Lemma all_normalized_checked : Preprocess.all_normalized_in_bounds = true.
Proof. vm_compute. reflexivity. Qed.

Lemma normalized_range (ch : nat) (v : Z) :
  (ch < 3)%nat -> (0 <= v <= 255)%Z ->
  Binary32.is_finite (Preprocess.normalized ch v) = true
  /\ -2.118 <= Binary32.to_R (Preprocess.normalized ch v) <= 2.6400002.
Proof.
  intros Hch Hv.
  pose proof all_normalized_checked as H. unfold Preprocess.all_normalized_in_bounds in H.
  rewrite forallb_forall in H. specialize (H ch). rewrite in_seq in H.
  specialize (H ltac:(lia)). rewrite forallb_forall in H.
  specialize (H (Z.to_nat v)). rewrite in_seq in H. specialize (H ltac:(lia)).
  rewrite Z2Nat.id in H by lia.
  apply andb_true_iff in H. destruct H as [Hlo Hhi].
  apply geb_ratio_sound in Hlo. apply leb_ratio_sound in Hhi.
  destruct Hhi as [Hfin Hhi]. split; [exact Hfin |].
  split; lra.
Qed.

(** The largest entry, reached in channel 2 at the value 255, is
    11072963 / 4194304 = 2.640000104904175, above the exact quotient
    2.64. *)
Lemma normalized_top_entry :
  Preprocess.normalized 2 255 = S754_finite false 11072963 (-22).
Proof. vm_compute. reflexivity. Qed.

Section PreprocessFacts.

Import Preprocess.

Context {image : Type}.
Variable resize : image -> hwc.

Lemma nth_map_in {A B : Type} (g : A -> B) (l : list A) (i : nat) (d : A) (d' : B) :
  (i < length l)%nat -> nth i (map g l) d' = g (nth i l d).
Proof.
  intros Hi. rewrite (nth_indep _ d' (g d)) by (now rewrite length_map).
  apply map_nth.
Qed.

Lemma channels_well_formed (height width : nat) (img : hwc) :
  (0 < height)%nat -> (0 < width)%nat -> well_formed height width img ->
  channels (to_float img) = 3%nat.
Proof.
  intros Hh Hw [Hlen Hrows].
  destruct img as [| row img]; [simpl in Hlen; lia |].
  apply Forall_inv in Hrows. destruct Hrows as [Hrow Hpx].
  destruct row as [| px row]; [simpl in Hrow; lia |].
  apply Forall_inv in Hpx. destruct Hpx as [Hpxlen _].
  simpl. now rewrite length_map.
Qed.

Lemma plane_normal_form (ch : nat) (height width : nat) (img : hwc) :
  well_formed height width img -> (ch < 3)%nat ->
  map (map (fun v => Binary32.div (Binary32.sub v (nth ch mean Binary32.zero))
                                  (nth ch std Binary32.zero)))
      (map (map (fun v => Binary32.div v (Binary32.of_binary64 (Binary64.of_Z 255))))
           (map (map (fun px => nth ch px Binary32.zero)) (to_float img))) =
  map (map (fun px => normalized ch (nth ch px 0%Z))) img.
Proof.
  intros [_ Hrows] Hch. unfold to_float. rewrite !map_map.
  apply map_ext_in. intros row Hrow. rewrite !map_map.
  apply map_ext_in. intros px Hpx.
  rewrite Forall_forall in Hrows. destruct (Hrows row Hrow) as [_ Hpxs].
  rewrite Forall_forall in Hpxs. destruct (Hpxs px Hpx) as [Hlen _].
  unfold normalized. now rewrite (nth_map_in Binary32.of_Z px ch 0%Z) by lia.
Qed.

Lemma network_input_planes (frame : image) (height width : nat) :
  (0 < height)%nat -> (0 < width)%nat ->
  well_formed height width (resize frame) ->
  network_input image resize frame =
  [[map (map (fun px => normalized 0 (nth 0 px 0%Z))) (resize frame);
    map (map (fun px => normalized 1 (nth 1 px 0%Z))) (resize frame);
    map (map (fun px => normalized 2 (nth 2 px 0%Z))) (resize frame)]].
Proof.
  intros Hh Hw Hwf. unfold network_input, normalize, div_scalar, permute_2_0_1.
  rewrite (channels_well_formed height width _ Hh Hw Hwf).
  pose proof (plane_normal_form 0 height width (resize frame) Hwf ltac:(lia)) as P0.
  pose proof (plane_normal_form 1 height width (resize frame) Hwf ltac:(lia)) as P1.
  pose proof (plane_normal_form 2 height width (resize frame) Hwf ltac:(lia)) as P2.
  unfold mean, std in *.
  cbn [seq map combine fst snd nth] in *.
  now rewrite P0, P1, P2.
Qed.

Lemma plane_shape (ch : nat) (height width : nat) (img : hwc) :
  well_formed height width img ->
  length (map (map (fun px => normalized ch (nth ch px 0%Z))) img) = height
  /\ Forall (fun row => length row = width)
            (map (map (fun px => normalized ch (nth ch px 0%Z))) img).
Proof.
  intros [Hlen Hrows]. rewrite length_map. split; [exact Hlen |].
  apply Forall_map. eapply Forall_impl; [| exact Hrows].
  intros row [Hrow _]. now rewrite length_map.
Qed.

Lemma plane_range (ch : nat) (height width : nat) (img : hwc) :
  (ch < 3)%nat -> well_formed height width img ->
  Forall (Forall (fun v => Binary32.is_finite v = true
                           /\ -2.118 <= Binary32.to_R v <= 2.6400002))
         (map (map (fun px => normalized ch (nth ch px 0%Z))) img).
Proof.
  intros Hch [_ Hrows].
  apply Forall_map. eapply Forall_impl; [| exact Hrows].
  intros row [_ Hpx]. apply Forall_map. eapply Forall_impl; [| exact Hpx].
  intros px [Hlen Hv]. apply normalized_range; [exact Hch |].
  rewrite Forall_forall in Hv. apply Hv. apply nth_In. lia.
Qed.

(** X20. For a height x width picture with three 8-bit channels, the tensor
    handed to the network has the shape (1, 3, height, width), its entry at
    [0, ch, h, w] is the float32 [(v / 255 - mean[ch]) / std[ch]], each
    step rounded, for the value [v] of the picture at [h, w, ch], and every
    entry is a finite float between -2.118 and 2.6400002. *)
Theorem network_input_normalized (frame : image) (height width : nat) :
  (0 < height)%nat -> (0 < width)%nat ->
  well_formed height width (resize frame) ->
  has_shape height width (network_input image resize frame)
  /\ in_range (-2.118) 2.6400002 (network_input image resize frame)
  /\ forall ch h w, (ch < 3)%nat -> (h < height)%nat -> (w < width)%nat ->
       nth w (nth h (nth ch (nth 0 (network_input image resize frame) []) []) [])
           Binary32.zero =
       normalized ch (nth ch (nth w (nth h (resize frame) []) []) 0%Z).
Proof.
  intros Hh Hw Hwf.
  rewrite (network_input_planes frame height width Hh Hw Hwf).
  split; [| split].
  - split; [reflexivity |].
    constructor; [| constructor].
    split; [reflexivity |].
    constructor; [now apply plane_shape |].
    constructor; [now apply plane_shape |].
    constructor; [now apply plane_shape | constructor].
  - unfold in_range. constructor; [| constructor].
    constructor; [apply (plane_range 0 height width); [lia | exact Hwf] |].
    constructor; [apply (plane_range 1 height width); [lia | exact Hwf] |].
    constructor; [apply (plane_range 2 height width); [lia | exact Hwf] | constructor].
  - intros ch h w Hch Hlt Hwlt.
    destruct Hwf as [Hlen Hrows].
    assert (Hrow : length (nth h (resize frame) []) = width).
    { rewrite Forall_forall in Hrows.
      apply (Hrows (nth h (resize frame) [])). apply nth_In. lia. }
    destruct ch as [| [| [| ch]]]; [| | | lia]; cbn [nth];
      rewrite (nth_map_in _ _ h []) by lia;
      rewrite (nth_map_in _ _ w []) by lia;
      reflexivity.
Qed.

End PreprocessFacts.

Lemma grey_well_formed (level : Z) :
  (0 <= level <= 255)%Z -> Preprocess.well_formed 224 224 (Preprocess.grey level).
Proof.
  intros Hl. unfold Preprocess.well_formed, Preprocess.grey.
  split; [apply repeat_length |].
  apply Forall_forall. intros row Hrow. apply repeat_spec in Hrow. subst row.
  split; [apply repeat_length |].
  apply Forall_forall. intros px Hpx. apply repeat_spec in Hpx. subst px.
  split; [reflexivity |]. repeat constructor; lia.
Qed.

Lemma network_input_normalized_witness :
  Preprocess.has_shape 224 224 (Preprocess.network_input Z Preprocess.grey 128%Z)
  /\ Preprocess.in_range (-2.118) 2.6400002
       (Preprocess.network_input Z Preprocess.grey 128%Z)
  /\ forall ch h w, (ch < 3)%nat -> (h < 224)%nat -> (w < 224)%nat ->
       nth w (nth h (nth ch (nth 0 (Preprocess.network_input Z Preprocess.grey 128%Z)
                                [])
                         []) []) Binary32.zero =
       Preprocess.normalized ch
         (nth ch (nth w (nth h (Preprocess.grey 128%Z) []) []) 0%Z).
Proof.
  apply (network_input_normalized Preprocess.grey 128%Z 224 224).
  - lia.
  - lia.
  - apply grey_well_formed. lia.
Defined.
